(** * ss-plugin-degit: a shallow embedding of the acquisition engine

    The Go sources are embedded function by function: strings are byte
    strings, Go errors are optional messages, the file system, the clock,
    the network and the [git] binary are an explicit world threaded
    through the stateful code. *)

From Stdlib Require Import String Ascii List ZArith Lia Bool DecimalString.
From stdpp Require Import base option list sorting gmap strings.

Local Open Scope string_scope.
Local Open Scope list_scope.

(** ** Go's [strings] package (the functions the sources call) *)

Module GoStrings.

(** [strings.HasPrefix(s, prefix)] *)
Definition HasPrefix (s p : string) : bool := String.prefix p s.

(** the first [n] bytes, [s[:n]] for [n <= len(s)] *)
Fixpoint take_bytes (n : nat) (s : string) : string :=
  match n, s with
  | S n', String c s' => String c (take_bytes n' s')
  | _, _ => EmptyString
  end.

(** the bytes from [n] on, [s[n:]] for [n <= len(s)] *)
Fixpoint drop_bytes (n : nat) (s : string) : string :=
  match n, s with
  | S n', String _ s' => drop_bytes n' s'
  | _, _ => s
  end.

(** [strings.HasSuffix(s, suffix)] *)
Definition HasSuffix (s suf : string) : bool :=
  (String.length suf <=? String.length s)%nat &&
  String.eqb (drop_bytes (String.length s - String.length suf) s) suf.

(** [strings.TrimSuffix(s, suffix)]: one occurrence is removed *)
Definition TrimSuffix (s suf : string) : string :=
  if HasSuffix s suf
  then take_bytes (String.length s - String.length suf) s
  else s.

(** [strings.Split(s, sep)] for a one-byte separator: always at least one
    field, empty fields are kept *)
Fixpoint Split (s : string) (sep : ascii) : list string :=
  match s with
  | EmptyString => [EmptyString]
  | String c s' =>
      if Ascii.eqb c sep then EmptyString :: Split s' sep
      else match Split s' sep with
           | f :: fs => String c f :: fs
           | [] => [String c EmptyString]
           end
  end.

(** [strings.Join(elems, sep)] *)
Fixpoint Join (elems : list string) (sep : string) : string :=
  match elems with
  | [] => EmptyString
  | [e] => e
  | e :: rest => e +:+ sep +:+ Join rest sep
  end.

(** [strings.Count(s, sep)] for a one-byte separator *)
Fixpoint Count (s : string) (sep : ascii) : nat :=
  match s with
  | EmptyString => 0
  | String c s' => (if Ascii.eqb c sep then 1 else 0) + Count s' sep
  end.

Fixpoint trim_left (s : string) (cut : ascii) : string :=
  match s with
  | String c s' => if Ascii.eqb c cut then trim_left s' cut else s
  | EmptyString => EmptyString
  end.

Fixpoint trim_right (s : string) (cut : ascii) : string :=
  match s with
  | EmptyString => EmptyString
  | String c s' =>
      match trim_right s' cut with
      | EmptyString => if Ascii.eqb c cut then EmptyString else String c EmptyString
      | t => String c t
      end
  end.

(** [strings.Trim(s, cutset)] for a one-byte cutset *)
Definition Trim (s : string) (cut : ascii) : string :=
  trim_right (trim_left s cut) cut.

(** [strconv.Itoa] on a natural number, as [%d] prints it *)
Definition Itoa (n : nat) : string := NilZero.string_of_uint (Nat.to_uint n).

End GoStrings.

(** ** Go's [path/filepath] on a Unix host (separator [/], no volume names) *)

Module GoFilepath.
Import GoStrings.

Definition Separator : ascii := "/"%char.

(** [filepath.IsAbs] *)
Definition IsAbs (p : string) : bool := HasPrefix p "/".

(** One step of [Clean]'s scan: [stack] holds the elements written so far,
    innermost first; a [..] removes the last real element, is dropped at
    the root of a rooted path, and is kept in front of a relative one. *)
Definition clean_step (rooted : bool) (stack : list string) (elem : string)
  : list string :=
  if String.eqb elem "" then stack
  else if String.eqb elem "." then stack
  else if String.eqb elem ".." then
    match stack with
    | top :: below =>
        if String.eqb top ".." then elem :: stack else below
    | [] => if rooted then [] else [elem]
    end
  else elem :: stack.

(** [filepath.Clean]: the shortest path equivalent to [p] by purely lexical
    processing *)
Definition Clean (p : string) : string :=
  if String.eqb p "" then "."
  else
    let rooted := IsAbs p in
    let stack := fold_left (clean_step rooted) (Split p Separator) [] in
    let body := Join (rev stack) "/" in
    if rooted then "/" +:+ body
    else if String.eqb body "" then "." else body.

(** [filepath.Join]: leading empty elements are ignored, the rest is joined
    with the separator and cleaned; all empty gives the empty string *)
Fixpoint Join (elem : list string) : string :=
  match elem with
  | [] => ""
  | e :: rest =>
      if String.eqb e "" then Join rest
      else Clean (GoStrings.Join elem "/")
  end.

Fixpoint last_sep_prefix (p : string) : string :=
  match p with
  | EmptyString => EmptyString
  | String c p' =>
      match last_sep_prefix p' with
      | EmptyString => if Ascii.eqb c Separator then String c EmptyString else EmptyString
      | t => String c t
      end
  end.

(** [filepath.Dir]: everything up to and including the last separator,
    cleaned *)
Definition Dir (p : string) : string := Clean (last_sep_prefix p).

(** [filepath.ToSlash] is the identity where the separator is [/] *)
Definition ToSlash (p : string) : string := p.

End GoFilepath.

(** ** Git references (package degit) *)

(** Go's [error] values: [None] is [nil], [Some msg] carries [err.Error()];
    [fmt.Errorf] with [%w] or [%v] splices the message. *)
Definition error := option string.

Record Ref := {
  Type_ : string;  (* "HEAD", "branch", "tag", or "commit" *)
  Name : string;   (* Reference name (e.g., "main", "v1.0.0") *)
  Hash : string;   (* Commit hash *)
}.

(** [isHex] ranges over the runes of [s]; a byte above 0x7f never decodes
    to a hexadecimal rune, so the test on bytes accepts the same strings. *)
Definition isHexChar (c : ascii) : bool :=
  let n := nat_of_ascii c in
  let isDigit := (48 <=? n)%nat && (n <=? 57)%nat in
  let isLowerHex := (97 <=? n)%nat && (n <=? 102)%nat in
  let isUpperHex := (65 <=? n)%nat && (n <=? 70)%nat in
  negb (negb isDigit && negb isLowerHex && negb isUpperHex).

Fixpoint isHex (s : string) : bool :=
  match s with
  | EmptyString => true
  | String c s' => if isHexChar c then isHex s' else false
  end.

(** the first element a [for ... range] loop returns on *)
Definition first_hash (p : Ref -> bool) (refs : list Ref) : option string :=
  Hash <$> List.find p refs.

Definition err_no_head : string := "could not find HEAD reference".
Definition err_unresolved (refName : string) : string :=
  "could not resolve reference: " +:+ refName.

(** [ResolveRef] returns [(hash, err)]; here [inl hash] is [(hash, nil)]
    and [inr msg] is [("", err)]. *)
Definition ResolveRef (refs : list Ref) (refName : string) : string + string :=
  if String.eqb refName "" || String.eqb refName "HEAD" then
    match first_hash (fun ref => String.eqb (Type_ ref) "HEAD") refs with
    | Some h => inl h
    | None => inr err_no_head
    end
  else
    match first_hash (fun ref => String.eqb (Type_ ref) "branch" &&
                                 String.eqb (Name ref) refName) refs with
    | Some h => inl h
    | None =>
    match first_hash (fun ref => String.eqb (Type_ ref) "tag" &&
                                 String.eqb (Name ref) refName) refs with
    | Some h => inl h
    | None =>
    match (if (8 <=? String.length refName)%nat
           then first_hash (fun ref => GoStrings.HasPrefix (Hash ref) refName) refs
           else None) with
    | Some h => inl h
    | None =>
        if (String.length refName =? 40)%nat && isHex refName
        then inl refName
        else inr (err_unresolved refName)
    end end end.

(** ** Go's [regexp]: leftmost-first matching with submatches

    Go documents that among the matches starting leftmost it returns the
    one a backtracking search finds first.  The matcher below is that
    backtracking search, on bytes, in continuation-passing style. *)

Module GoRegexp.
Import GoStrings.

Inductive re : Type :=
| Eps                          (* the empty pattern *)
| Class (p : ascii -> bool)    (* one byte of a class, e.g. [^:/] *)
| Lit (s : string)             (* a literal *)
| Seq (r1 r2 : re)             (* r1 r2 *)
| Alt (r1 r2 : re)             (* r1|r2, r1 preferred *)
| Opt (r : re)                 (* r?, greedy *)
| Plus (r : re)                (* r+, greedy *)
| Group (i : nat) (r : re)     (* the i-th capturing group *)
| Eol.                         (* $ without the m flag: end of text *)

(** submatches by group index; a group that took no part is absent *)
Definition caps := gmap nat string.

Fixpoint run (r : re) (s : string) (c : caps)
    (k : string -> caps -> option caps) {struct r} : option caps :=
  match r with
  | Eps => k s c
  | Class p =>
      match s with
      | String a s' => if p a then k s' c else None
      | EmptyString => None
      end
  | Lit l =>
      if HasPrefix s l then k (drop_bytes (String.length l) s) c else None
  | Seq r1 r2 => run r1 s c (fun s' c' => run r2 s' c' k)
  | Alt r1 r2 =>
      match run r1 s c k with
      | Some m => Some m
      | None => run r2 s c k
      end
  | Opt r1 =>
      match run r1 s c k with
      | Some m => Some m
      | None => k s c
      end
  | Plus r1 =>
      (fix iter (n : nat) (s : string) (c : caps) {struct n} : option caps :=
         match n with
         | O => None
         | S n' =>
             run r1 s c (fun s' c' =>
               if (String.length s' <? String.length s)%nat then
                 match iter n' s' c' with
                 | Some m => Some m
                 | None => k s' c'
                 end
               else k s' c')
         end) (S (String.length s)) s c
  | Group i r1 =>
      run r1 s c (fun s' c' =>
        k s' (<[i := take_bytes (String.length s - String.length s') s]> c'))
  | Eol =>
      match s with
      | EmptyString => k s c
      | _ => None
      end
  end.

(** [FindStringSubmatch] for a pattern that starts with [^]: the only
    candidate offset is 0.  The result lists groups [0..n]; a group that
    did not take part reads as the empty string. *)
Definition FindStringSubmatch (r : re) (ngroups : nat) (s : string)
  : option (list string) :=
  match run (Group 0 r) s ∅ (fun _ c => Some c) with
  | Some c => Some (map (fun i => default "" (c !! i)) (seq 0 (S ngroups)))
  | None => None
  end.

End GoRegexp.

(** ** Source strings (package degit) *)

Record Source := {
  Site : string;    (* e.g., "github", "gitlab", "bitbucket" *)
  Owner : string;   (* repository owner/user *)
  Repo : string;    (* repository name *)
  Ref_ : string;    (* field [Ref]: branch, tag, or commit (default: "HEAD") *)
  Subdir : string;  (* subdirectory path (optional) *)
  URL : string;     (* HTTPS URL *)
  SSH : string;     (* SSH URL *)
}.

(** [supportedHosts[site]]: a missing key reads as [false] *)
Definition supportedHosts (site : string) : bool :=
  existsb (String.eqb site) ["github"; "gitlab"; "bitbucket"; "git.sr.ht"].

Definition is_byte (x : ascii) (c : ascii) : bool := Ascii.eqb c x.

(** [\s] is [[\t\n\f\r ]] *)
Definition is_space (c : ascii) : bool :=
  existsb (Nat.eqb (nat_of_ascii c)) [9; 10; 12; 13; 32]%nat.

Definition not_colon_slash (c : ascii) : bool :=
  negb (is_byte ":" c || is_byte "/" c).
Definition not_slash (c : ascii) : bool := negb (is_byte "/" c).
Definition not_slash_space (c : ascii) : bool :=
  negb (is_byte "/" c || is_space c).
Definition not_slash_space_hash (c : ascii) : bool :=
  negb (is_byte "/" c || is_space c || is_byte "#" c).
Definition colon_or_slash (c : ascii) : bool := is_byte ":" c || is_byte "/" c.
(** [.] without the s flag: any byte but a newline *)
Definition any_char (c : ascii) : bool := negb (Nat.eqb (nat_of_ascii c) 10).

(** [sourceRegex], after the leading [^]:
<<
  (?:(?:https:\/\/)?([^:/]+\.[^:/]+)\/|git@([^:/]+)[:/]|([^/]+):)?
  ([^/\s]+)\/([^/\s#]+)(?:((?:\/[^/\s#]+)+))?(?:\/)?(?:#(.+))?$
>> *)
Definition sourceRegex : GoRegexp.re :=
  let re_seq := fold_right GoRegexp.Seq GoRegexp.Eps in
  let cls p := GoRegexp.Plus (GoRegexp.Class p) in
  re_seq [
    GoRegexp.Opt
      (GoRegexp.Alt
         (re_seq [GoRegexp.Opt (GoRegexp.Lit "https://");
                  GoRegexp.Group 1
                    (re_seq [cls not_colon_slash; GoRegexp.Lit ".";
                             cls not_colon_slash]);
                  GoRegexp.Lit "/"])
         (GoRegexp.Alt
            (re_seq [GoRegexp.Lit "git@";
                     GoRegexp.Group 2 (cls not_colon_slash);
                     GoRegexp.Class colon_or_slash])
            (re_seq [GoRegexp.Group 3 (cls not_slash); GoRegexp.Lit ":"])));
    GoRegexp.Group 4 (cls not_slash_space);
    GoRegexp.Lit "/";
    GoRegexp.Group 5 (cls not_slash_space_hash);
    GoRegexp.Opt
      (GoRegexp.Group 6
         (GoRegexp.Plus (re_seq [GoRegexp.Lit "/"; cls not_slash_space_hash])));
    GoRegexp.Opt (GoRegexp.Lit "/");
    GoRegexp.Opt (re_seq [GoRegexp.Lit "#"; GoRegexp.Group 7 (cls any_char)]);
    GoRegexp.Eol ].

(** [getDomain] returns the full domain for a site *)
Definition getDomain (site : string) : string :=
  if String.eqb site "github" then "github.com"
  else if String.eqb site "gitlab" then "gitlab.com"
  else if String.eqb site "bitbucket" then "bitbucket.org"
  else if String.eqb site "git.sr.ht" then "git.sr.ht"
  else site +:+ ".com".

Definition match_at (m : list string) (i : nat) : string := nth i m "".

(** [ParseSource]: [inl] is [(&Source{...}, nil)], [inr] is [(nil, err)] *)
Definition ParseSource (src : string) : Source + string :=
  match GoRegexp.FindStringSubmatch sourceRegex 7 src with
  | None => inr ("could not parse source: " +:+ src)
  | Some m =>
      (* Determine the site (host) *)
      let site := match_at m 1 in
      let site := if String.eqb site "" then match_at m 2 else site in
      let site := if String.eqb site "" then match_at m 3 else site in
      let site := if String.eqb site "" then "github" else site in
      (* Remove common TLD suffixes *)
      let site := GoStrings.TrimSuffix site ".com" in
      let site := GoStrings.TrimSuffix site ".org" in
      if negb (supportedHosts site) then
        inr ("unsupported host: " +:+ site +:+
             " (supported: github, gitlab, bitbucket, git.sr.ht)")
      else
        let owner := match_at m 4 in
        let repo := GoStrings.TrimSuffix (match_at m 5) ".git" in
        let subdir := match_at m 6 in
        let ref := match_at m 7 in
        let ref := if String.eqb ref "" then "HEAD" else ref in
        let domain := getDomain site in
        let url := "https://" +:+ domain +:+ "/" +:+ owner +:+ "/" +:+ repo in
        let ssh := "git@" +:+ domain +:+ ":" +:+ owner +:+ "/" +:+ repo in
        inl {| Site := site; Owner := owner; Repo := repo; Ref_ := ref;
               Subdir := subdir; URL := url; SSH := ssh |}
  end.

(** [TarballURL] returns the URL for downloading the repository tarball *)
Definition TarballURL (s : Source) (hash : string) : string :=
  if String.eqb (Site s) "gitlab" then
    URL s +:+ "/-/archive/" +:+ hash +:+ "/" +:+ Repo s +:+ "-" +:+ hash +:+ ".tar.gz"
  else if String.eqb (Site s) "bitbucket" then
    URL s +:+ "/get/" +:+ hash +:+ ".tar.gz"
  else URL s +:+ "/archive/" +:+ hash +:+ ".tar.gz".

(** [APITarballURL] returns the GitHub API URL for downloading private repo
    tarballs *)
Definition APITarballURL (s : Source) (ref : string) : string :=
  if negb (String.eqb (Site s) "github") then ""
  else "https://api.github.com/repos/" +:+ Owner s +:+ "/" +:+ Repo s +:+
       "/tarball/" +:+ ref.

(** ** Data kept in files *)

(** [Action] represents a degit.json action *)
Record Action := {
  Action_ : string;       (* field [Action]: "clone" or "remove" *)
  Src : string;           (* Source repo for clone action *)
  Files : list string;    (* Files to remove for remove action *)
  ACache : bool;          (* field [Cache]: use cache for clone action *)
  AVerbose : bool;        (* field [Verbose]: verbose output for clone action *)
}.

Inductive Typeflag := TypeDir | TypeReg | TypeSymlink | TypeOther.

(** [tar.Header], the fields the extractor reads *)
Record TarHeader := {
  TName : string;         (* [header.Name] *)
  TTypeflag : Typeflag;   (* [header.Typeflag] *)
  TMode : Z;              (* [header.Mode] *)
  TLinkname : string;     (* [header.Linkname] *)
}.

(** A Go [map[string]string]: the nil map reads as empty and panics on
    assignment. *)
Inductive GoMap :=
| NilMap
| MkMap (m : gmap string string).

Definition map_entries (m : GoMap) : gmap string string :=
  match m with NilMap => ∅ | MkMap g => g end.

(** [m[k]]: a missing key reads as the empty string *)
Definition map_get (m : GoMap) (k : string) : string :=
  default "" (map_entries m !! k).

(** What a file holds, by what decoding it gives: the JSON encoders and
    the gzip and tar readers are Go's, so a file is kept as the value its
    bytes stand for. *)
#[warnings="-register-all"]
Inductive FileData :=
| DJsonNull                                   (* the JSON text [null] *)
| DJsonObject (m : gmap string string)        (* a JSON object of strings *)
| DJsonActions (l : list Action)              (* a JSON array of actions *)
| DTarGz (entries : list (TarHeader * FileData)) (intact : bool)
    (* a gzip-compressed tar stream of headers with their bodies; when not
       intact, reading fails after the listed entries *)
| DBytes (s : string).                        (* anything else *)

Inductive Node :=
| File (mode : Z) (data : FileData)
| Dir (mode : Z)
| Symlink (target : string).

(** ** The world: file system and journal; the environment: everything the
    program only asks *)

Inductive Event :=
| Warning (msg : string)          (* sdk.Warning *)
| Info (msg : string)             (* sdk.Info *)
| LookPath (bin : string)         (* exec.LookPath *)
| Exec (argv : list string)       (* cmd.Run of an external command *)
| ListRemote (url : string)       (* references asked from the remote *)
| HttpGet (url : string) (authorized : bool).

Record World := {
  fs : gmap string Node;          (* by cleaned path *)
  journal : list Event;           (* newest first *)
}.

Inductive IoOp :=
| OpRead | OpWrite | OpMkdir | OpRemove | OpStat | OpReadDir | OpRename
| OpSymlink.

Inductive HttpResult :=
| HttpFailed (msg : string)                  (* no response *)
| HttpResponse (status : nat) (body : FileData).

Record Env := {
  user_home_dir : option string;     (* os.UserHomeDir() *)
  temp_dir : string;                 (* os.TempDir() *)
  temp_name : string;                (* the name os.MkdirTemp picks *)
  now_rfc3339 : string;              (* time.Now().UTC().Format(time.RFC3339) *)
  io_fault : IoOp -> string -> bool; (* the call fails for an outside reason *)
  github_token : string;             (* auth.GitHubToken() *)
  remote_refs : Source -> list Ref + string;
    (* what listing the remote's references gives: the network part of
       FetchRefs and FetchRefsWithToken *)
  http_do : string -> bool -> HttpResult;
    (* the final response to a GET of a URL, with or without credentials *)
  git_in_path : bool;                (* exec.LookPath("git") succeeds *)
  run_cmd : list string -> gmap string Node -> bool * gmap string Node;
    (* cmd.Run(): success, and the file system it leaves *)
}.

Inductive Outcome (A : Type) :=
| Return (a : A) (w : World)
| Panic (msg : string) (w : World)   (* a Go run-time panic *)
| Diverge.                           (* the model's fuel ran out *)
Arguments Return {A} a w.
Arguments Panic {A} msg w.
Arguments Diverge {A}.

Definition M (A : Type) : Type := World -> Outcome A.

Definition ret {A} (a : A) : M A := fun w => Return a w.

Definition bind {A B} (m : M A) (k : A -> M B) : M B :=
  fun w =>
    match m w with
    | Return a w' => k a w'
    | Panic msg w' => Panic msg w'
    | Diverge => Diverge
    end.

Notation "x <- m ;; k" := (bind m (fun x => k))
  (at level 100, m at level 99, right associativity).
Notation "m ;;; k" := (bind m (fun _ => k))
  (at level 100, right associativity).

Definition panic {A} (msg : string) : M A := fun w => Panic msg w.
Definition get_fs : M (gmap string Node) := fun w => Return (fs w) w.
Definition put_fs (f : gmap string Node) : M unit :=
  fun w => Return tt {| fs := f; journal := journal w |}.
Definition emit (e : Event) : M unit :=
  fun w => Return tt {| fs := fs w; journal := e :: journal w |}.

(** [when b m]: [if b { m }] *)
Definition when (b : bool) (m : M unit) : M unit := if b then m else ret tt.

(** [s[:n]], which panics when [s] is shorter *)
Definition slice_to (s : string) (n : nat) : M string :=
  if (n <=? String.length s)%nat then ret (GoStrings.take_bytes n s)
  else panic "slice bounds out of range".

(** ** Go's [os] package on the modelled file system

    Paths are resolved lexically: a path names the node stored at its
    cleaned form. *)

Inductive IoErr := NotExist | OtherIoErr.

Definition io_msg (e : IoErr) : string :=
  match e with
  | NotExist => "no such file or directory"
  | OtherIoErr => "input/output error"
  end.

Definition dir_prefix (d : string) : string :=
  if GoStrings.HasSuffix d "/" then d else d +:+ "/".

(** [under d k]: the cleaned path [k] is [d] or lies below it *)
Definition under (d k : string) : bool :=
  String.eqb k d ||
  (if String.eqb d "."
   then negb (GoFilepath.IsAbs k) &&
        negb (String.eqb k ".." || GoStrings.HasPrefix k "../")
   else GoStrings.HasPrefix k (dir_prefix d)).

Definition is_dir_node (f : gmap string Node) (p : string) : bool :=
  String.eqb p "/" || String.eqb p "." ||
  match f !! p with Some (Dir _) => true | _ => false end.

Definition exists_node (f : gmap string Node) (p : string) : bool :=
  String.eqb p "/" || String.eqb p "." || bool_decide (is_Some (f !! p)).

(** the nodes strictly below [p] *)
Definition below (f : gmap string Node) (p : string) : gmap string Node :=
  filter (fun kv => under p kv.1 = true /\ kv.1 <> p) f.

Definition name_le (a b : string) : Prop := Is_true (String.leb a b).

#[global] Instance name_le_dec : RelDecision name_le :=
  fun a b => decide (Is_true (String.leb a b)).

(** the names directly inside directory [p], sorted by name *)
Definition children (f : gmap string Node) (p : string) : list string :=
  merge_sort name_le
    (omap (fun kv =>
             let k := kv.1 in
             if under p k && negb (String.eqb k p) &&
                String.eqb (GoFilepath.Dir k) p
             then Some (GoStrings.drop_bytes
                          (if String.eqb p "." then 0
                           else String.length (dir_prefix p)) k)
             else None)
          (map_to_list f)).

(** the cleaned proper ancestors of a cleaned path, nearest first *)
Fixpoint ancestors (fuel : nat) (p : string) : list string :=
  match fuel with
  | O => []
  | S n =>
      let d := GoFilepath.Dir p in
      if String.eqb d p then [] else d :: ancestors n d
  end.

Section WithEnv.
Context (E : Env).

(** [os.Stat]: follows symbolic links (at most 40, as Linux does) *)
Fixpoint stat_from (hops : nat) (f : gmap string Node) (p : string)
  : IoErr + Node :=
  if String.eqb p "/" || String.eqb p "." then inr (Dir 493)
  else
    match f !! p with
    | None => inl NotExist
    | Some (Symlink t) =>
        match hops with
        | O => inl OtherIoErr
        | S h =>
            stat_from h f
              (if GoFilepath.IsAbs t then GoFilepath.Clean t
               else GoFilepath.Join [GoFilepath.Dir p; t])
        end
    | Some n => inr n
    end.

Definition os_Stat (path : string) : M (IoErr + Node) :=
  f <- get_fs ;;
  if String.eqb path "" then ret (inl NotExist)
  else if io_fault E OpStat path then ret (inl OtherIoErr)
  else ret (stat_from 40 f (GoFilepath.Clean path)).

(** [os.ReadFile] *)
Definition os_ReadFile (path : string) : M (IoErr + FileData) :=
  f <- get_fs ;;
  if String.eqb path "" then ret (inl NotExist)
  else if io_fault E OpRead path then ret (inl OtherIoErr)
  else match stat_from 40 f (GoFilepath.Clean path) with
       | inl e => ret (inl e)
       | inr (File _ d) => ret (inr d)
       | inr _ => ret (inl OtherIoErr)
       end.

(** [os.MkdirAll]: creates the directory and every missing parent; fails
    when a file is in the way *)
Definition os_MkdirAll (path : string) (perm : Z) : M (option IoErr) :=
  f <- get_fs ;;
  if String.eqb path "" then ret (Some NotExist)
  else if io_fault E OpMkdir path then ret (Some OtherIoErr)
  else
    let p := GoFilepath.Clean path in
    let chain := p :: ancestors (String.length p) p in
    if forallb (fun d => is_dir_node f d || negb (exists_node f d)) chain
    then
      put_fs (fold_right
                (fun d g => if exists_node g d then g else <[d := Dir perm]> g)
                f chain) ;;;
      ret None
    else ret (Some OtherIoErr).

(** writing a whole file: [os.WriteFile], and [os.OpenFile] or
    [os.Create] with [O_CREATE|O_WRONLY|O_TRUNC] followed by [io.Copy] *)
Definition os_WriteFile (path : string) (data : FileData) (perm : Z)
  : M (option IoErr) :=
  f <- get_fs ;;
  if String.eqb path "" then ret (Some NotExist)
  else if io_fault E OpWrite path then ret (Some OtherIoErr)
  else
    let p := GoFilepath.Clean path in
    if negb (is_dir_node f (GoFilepath.Dir p)) then ret (Some NotExist)
    else match f !! p with
         | Some (File mode _) => put_fs (<[p := File mode data]> f) ;;; ret None
         | Some _ => ret (Some OtherIoErr)
         | None =>
             if String.eqb p "/" || String.eqb p "." then ret (Some OtherIoErr)
             else put_fs (<[p := File perm data]> f) ;;; ret None
         end.

(** [os.Remove]: a file, a link or an empty directory *)
Definition os_Remove (path : string) : M (option IoErr) :=
  f <- get_fs ;;
  if String.eqb path "" then ret (Some NotExist)
  else if io_fault E OpRemove path then ret (Some OtherIoErr)
  else
    let p := GoFilepath.Clean path in
    match f !! p with
    | None => ret (Some NotExist)
    | Some (Dir _) =>
        if bool_decide (below f p = ∅)
        then put_fs (delete p f) ;;; ret None
        else ret (Some OtherIoErr)
    | Some _ => put_fs (delete p f) ;;; ret None
    end.

(** [RemoveAll] refuses a path whose last element is [.] *)
Definition endsWithDot (path : string) : bool :=
  String.eqb path "." || GoStrings.HasSuffix path "/.".

(** [os.RemoveAll]: the path and everything below it; a missing path is
    not an error *)
Definition os_RemoveAll (path : string) : M (option IoErr) :=
  f <- get_fs ;;
  if String.eqb path "" then ret None
  else if endsWithDot path then ret (Some OtherIoErr)
  else if io_fault E OpRemove path then ret (Some OtherIoErr)
  else
    let p := GoFilepath.Clean path in
    put_fs (filter (fun kv => under p kv.1 = false) f) ;;;
    ret None.

(** [os.ReadDir]: the entries' names, sorted *)
Definition os_ReadDir (path : string) : M (IoErr + list string) :=
  f <- get_fs ;;
  if String.eqb path "" then ret (inl NotExist)
  else if io_fault E OpReadDir path then ret (inl OtherIoErr)
  else
    let p := GoFilepath.Clean path in
    match stat_from 40 f p with
    | inl e => ret (inl e)
    | inr (Dir _) => ret (inr (children f p))
    | inr _ => ret (inl OtherIoErr)
    end.

(** [os.Rename]: moves a node with everything below it *)
Definition os_Rename (oldpath newpath : string) : M (option IoErr) :=
  f <- get_fs ;;
  if String.eqb oldpath "" || String.eqb newpath "" then ret (Some NotExist)
  else if io_fault E OpRename oldpath then ret (Some OtherIoErr)
  else
    let o := GoFilepath.Clean oldpath in
    let n := GoFilepath.Clean newpath in
    match f !! o with
    | None => ret (Some NotExist)
    | Some _ =>
        if negb (is_dir_node f (GoFilepath.Dir n)) then ret (Some NotExist)
        else if bool_decide (below f n = ∅) then
          let moved := filter (fun kv => under o kv.1 = true) f in
          let kept := filter (fun kv => under o kv.1 = false) (delete n f) in
          put_fs (list_to_map
                    (map (fun kv => (n +:+ GoStrings.drop_bytes (String.length o) kv.1,
                                     kv.2))
                         (map_to_list moved)) ∪ kept) ;;;
          ret None
        else ret (Some OtherIoErr)
    end.

(** [os.Symlink]: fails when the platform refuses or the name is taken *)
Definition os_Symlink (target path : string) : M (option IoErr) :=
  f <- get_fs ;;
  if String.eqb path "" then ret (Some NotExist)
  else if io_fault E OpSymlink path then ret (Some OtherIoErr)
  else
    let p := GoFilepath.Clean path in
    if negb (is_dir_node f (GoFilepath.Dir p)) then ret (Some NotExist)
    else if exists_node f p then ret (Some OtherIoErr)
    else put_fs (<[p := Symlink target]> f) ;;; ret None.

(** [os.MkdirTemp("", pattern)] *)
Definition os_MkdirTemp (pattern : string) : M (IoErr + string) :=
  f <- get_fs ;;
  let p := GoFilepath.Join [temp_dir E; pattern +:+ temp_name E] in
  if io_fault E OpMkdir p then ret (inl OtherIoErr)
  else if exists_node f p then ret (inl OtherIoErr)
  else put_fs (<[p := Dir 448]> f) ;;; ret (inr p).

(** what [err.Error()] reads for a failed call *)
Definition io_error (op path : string) (e : IoErr) : string :=
  op +:+ " " +:+ path +:+ ": " +:+ io_msg e.

(** ** The reference cache (cache.go) *)

(** [GetCacheDir]: default ~/.ss/cache/degit/ *)
Definition GetCacheDir : string :=
  match user_home_dir E with
  | None => GoFilepath.Join [temp_dir E; "degit-cache"]
  | Some homeDir => GoFilepath.Join [homeDir; ".ss"; "cache"; "degit"]
  end.

(** [GetRepoCacheDir] returns the cache directory for a specific repository *)
Definition GetRepoCacheDir (src : Source) : string :=
  GoFilepath.Join [GetCacheDir; Site src; Owner src; Repo src].

(** [json.Unmarshal(data, &m)] for a [map[string]string]: [null] leaves the
    nil map, an object of strings fills a map, all else is an error *)
Definition json_Unmarshal_map (data : FileData) : GoMap + string :=
  match data with
  | DJsonNull => inl NilMap
  | DJsonObject m => inl (MkMap m)
  | _ => inr "json: cannot unmarshal into Go value of type map[string]string"
  end.

(** [json.MarshalIndent(m, "", "  ")] *)
Definition json_MarshalIndent_map (m : GoMap) : FileData :=
  match m with
  | NilMap => DJsonNull
  | MkMap g => DJsonObject g
  end.

(** [m[k] = v] *)
Definition map_set (m : GoMap) (k v : string) : M GoMap :=
  match m with
  | NilMap => panic "assignment to entry in nil map"
  | MkMap g => ret (MkMap (<[k := v]> g))
  end.

(** the body shared by [LoadRefMap] and [LoadAccessLog] *)
Definition load_json_map (path : string) : M (GoMap + string) :=
  r <- os_ReadFile path ;;
  match r with
  | inl NotExist => ret (inl (MkMap ∅))
  | inl e => ret (inr (io_error "open" path e))
  | inr data => ret (json_Unmarshal_map data)
  end.

(** the body shared by [SaveRefMap] and [SaveAccessLog] *)
Definition save_json_map (cacheDir file : string) (m : GoMap) : M error :=
  e <- os_MkdirAll cacheDir 493 ;;
  match e with
  | Some e => ret (Some (io_error "mkdir" cacheDir e))
  | None =>
      let path := GoFilepath.Join [cacheDir; file] in
      let data := json_MarshalIndent_map m in
      w <- os_WriteFile path data 420 ;;
      match w with
      | Some e => ret (Some (io_error "open" path e))
      | None => ret None
      end
  end.

(** [LoadRefMap] loads the ref->hash mapping from cache *)
Definition LoadRefMap (cacheDir : string) : M (GoMap + string) :=
  load_json_map (GoFilepath.Join [cacheDir; "map.json"]).

(** [SaveRefMap] saves the ref->hash mapping to cache *)
Definition SaveRefMap (cacheDir : string) (refMap : GoMap) : M error :=
  save_json_map cacheDir "map.json" refMap.

(** [LoadAccessLog] loads access timestamps from cache *)
Definition LoadAccessLog (cacheDir : string) : M (GoMap + string) :=
  load_json_map (GoFilepath.Join [cacheDir; "access.json"]).

(** [SaveAccessLog] saves access timestamps to cache *)
Definition SaveAccessLog (cacheDir : string) (accessLog : GoMap) : M error :=
  save_json_map cacheDir "access.json" accessLog.

(** the loop [for _, h := range refMap { if h == oldHash { ... break } }]:
    it visits every entry of the map, the one of [ref] included *)
Definition hashInUse (refMap : GoMap) (oldHash : string) : bool :=
  existsb (fun kv => String.eqb kv.2 oldHash) (map_to_list (map_entries refMap)).

(** [UpdateCache] updates the cache with a new ref->hash mapping *)
Definition UpdateCache (cacheDir ref hash : string) : M error :=
  (* Load current mappings *)
  r <- LoadRefMap cacheDir ;;
  let refMap := match r with inl m => m | inr _ => MkMap ∅ end in
  a <- LoadAccessLog cacheDir ;;
  let accessLog := match a with inl m => m | inr _ => MkMap ∅ end in
  (* Update access timestamp *)
  accessLog <- map_set accessLog ref (now_rfc3339 E) ;;
  err <- SaveAccessLog cacheDir accessLog ;;
  match err with
  | Some e => ret (Some e)
  | None =>
      (* Check if ref already points to this hash *)
      if String.eqb (map_get refMap ref) hash then ret None
      else
        (* Check if old hash is still in use by other refs *)
        let oldHash := map_get refMap ref in
        (if negb (String.eqb oldHash "") then
           (* Clean up old tarball if no longer in use *)
           if negb (hashInUse refMap oldHash) then
             let oldTarball := GoFilepath.Join [cacheDir; oldHash +:+ ".tar.gz"] in
             _ <- os_Remove oldTarball ;; ret tt
           else ret tt
         else ret tt) ;;;
        (* Update mapping *)
        refMap <- map_set refMap ref hash ;;
        SaveRefMap cacheDir refMap
  end.

(** [GetCachedTarball] returns the path to a cached tarball if it exists *)
Definition GetCachedTarball (cacheDir hash : string) : M string :=
  let tarballPath := GoFilepath.Join [cacheDir; hash +:+ ".tar.gz"] in
  r <- os_Stat tarballPath ;;
  match r with
  | inr _ => ret tarballPath
  | inl _ => ret ""
  end.

(** [GetCachedHash] returns the cached hash for a ref, if any *)
Definition GetCachedHash (cacheDir ref : string) : M string :=
  r <- LoadRefMap cacheDir ;;
  match r with
  | inr _ => ret ""
  | inl refMap => ret (map_get refMap ref)
  end.

(** ** The archive extractor (extract.go) *)

(** [StripComponents] is an [int]; the sources only pass 1 and the model
    takes it non-negative. *)
Record ExtractOptions := {
  StripComponents : nat;  (* Number of leading path components to strip *)
  ESubdir : string;       (* field [Subdir]: subdirectory to extract *)
}.

(** [stripPath] removes the first n path components from a path *)
Definition stripPath (path : string) (n : nat) : string :=
  let parts := GoStrings.Split (GoFilepath.ToSlash path) "/" in
  if (length parts <=? n)%nat then ""
  else GoFilepath.Join (drop n parts).

(** [containsSubdir] checks if a path contains a specific subdirectory *)
Definition containsSubdir (path subdir : string) : bool :=
  let path := GoFilepath.ToSlash path in
  let subdir := GoFilepath.ToSlash (GoStrings.Trim subdir "/") in
  let parts := GoStrings.Split path "/" in
  if (length parts <? 2)%nat then false
  else
    (* Skip the root directory (repo-name-hash) *)
    let pathAfterRoot := GoStrings.Join (drop 1 parts) "/" in
    GoStrings.HasPrefix pathAfterRoot (subdir +:+ "/") ||
    String.eqb pathAfterRoot subdir.

(** [extractFile] extracts a single file from the tar reader *)
Definition extractFile (body : FileData) (destPath : string) (mode : Z) : M error :=
  e <- os_MkdirAll (GoFilepath.Dir destPath) 493 ;;
  match e with
  | Some e => ret (Some (io_error "mkdir" (GoFilepath.Dir destPath) e))
  | None =>
      w <- os_WriteFile destPath body mode ;;
      match w with
      | Some e => ret (Some (io_error "open" destPath e))
      | None => ret None
      end
  end.

(** the [for] loop of [ExtractTarball] over the entries [tarReader.Next]
    hands out; [intact] tells how the stream ends *)
Fixpoint extractEntries (destDir : string) (opts : ExtractOptions)
    (stripLevel : nat) (entries : list (TarHeader * FileData)) (intact : bool)
  : M error :=
  match entries with
  | [] =>
      if intact then ret None
      else ret (Some "failed to read tar entry: unexpected EOF")
  | (header, body) :: rest =>
      let continue := extractEntries destDir opts stripLevel rest intact in
      (* Skip if file doesn't match subdirectory filter *)
      if negb (String.eqb (ESubdir opts) "") &&
         negb (containsSubdir (TName header) (GoStrings.Trim (ESubdir opts) "/"))
      then continue
      else
        (* Strip leading path components *)
        let name := stripPath (TName header) stripLevel in
        if String.eqb name "" then continue
        else
          (* Construct full destination path *)
          let destPath := GoFilepath.Join [destDir; name] in
          (* Security check: prevent path traversal *)
          if negb (GoStrings.HasPrefix (GoFilepath.Clean destPath)
                                       (GoFilepath.Clean destDir))
          then ret (Some ("path traversal detected: " +:+ TName header))
          else
            match TTypeflag header with
            | TypeDir =>
                e <- os_MkdirAll destPath (TMode header) ;;
                match e with
                | Some e =>
                    ret (Some ("failed to create directory: " +:+
                               io_error "mkdir" destPath e))
                | None => continue
                end
            | TypeReg =>
                e <- extractFile body destPath (TMode header) ;;
                match e with
                | Some e => ret (Some ("failed to extract file: " +:+ e))
                | None => continue
                end
            | TypeSymlink =>
                (* Security check: ensure symlink target doesn't escape
                   destination *)
                let linkTarget := TLinkname header in
                if GoFilepath.IsAbs linkTarget then continue
                else
                  let targetPath :=
                    GoFilepath.Join [GoFilepath.Dir destPath; linkTarget] in
                  if negb (GoStrings.HasPrefix (GoFilepath.Clean targetPath)
                                               (GoFilepath.Clean destDir))
                  then continue
                  else
                    (* Ignore symlink errors (Windows compatibility) *)
                    _ <- os_Symlink linkTarget destPath ;; continue
            | TypeOther => continue
            end
  end.

(** [ExtractTarball] extracts a .tar.gz file to the destination directory *)
Definition ExtractTarball (tarballPath destDir : string) (opts : ExtractOptions)
  : M error :=
  r <- os_ReadFile tarballPath ;;
  match r with
  | inl e => ret (Some ("failed to open tarball: " +:+ io_error "open" tarballPath e))
  | inr (DTarGz entries intact) =>
      (* Calculate strip level *)
      let stripLevel := StripComponents opts in
      let stripLevel := if (stripLevel =? 0)%nat then 1 else stripLevel in
      (* Add subdirectory depth to strip level *)
      let stripLevel :=
        if negb (String.eqb (ESubdir opts) "") then
          let subdir := GoStrings.Trim (ESubdir opts) "/" in
          stripLevel + (GoStrings.Count subdir "/" + 1)
        else stripLevel in
      (* Ensure destination directory exists *)
      e <- os_MkdirAll destDir 493 ;;
      match e with
      | Some e =>
          ret (Some ("failed to create destination directory: " +:+
                     io_error "mkdir" destDir e))
      | None => extractEntries destDir opts stripLevel entries intact
      end
  | inr _ => ret (Some "failed to create gzip reader: gzip: invalid header")
  end.

(** ** Archive download *)

Record DownloadOptions := {
  DToken : string;    (* field [Token]: GitHub token for private repos *)
  DVerbose : bool;    (* field [Verbose]: enable verbose output *)
}.

(** [saveResponse] saves an HTTP response body to a file *)
Definition saveResponse (body : FileData) (destPath : string) : M error :=
  (* Ensure parent directory exists *)
  e <- os_MkdirAll (GoFilepath.Dir destPath) 493 ;;
  match e with
  | Some e =>
      ret (Some ("failed to create directory: " +:+
                 io_error "mkdir" (GoFilepath.Dir destPath) e))
  | None =>
      w <- os_WriteFile destPath body 438 ;;
      match w with
      | Some e => ret (Some ("failed to create file: " +:+ io_error "open" destPath e))
      | None => ret None
      end
  end.

(** [downloadPublic] downloads a file without authentication *)
Definition downloadPublic (url destPath : string) : M error :=
  emit (HttpGet url false) ;;;
  match http_do E url false with
  | HttpFailed msg => ret (Some ("failed to download: " +:+ msg))
  | HttpResponse status body =>
      if negb (status =? 200)%nat
      then ret (Some ("download failed with status " +:+ GoStrings.Itoa status))
      else saveResponse body destPath
  end.

(** [downloadGitHubTarball] downloads a GitHub repository tarball using the
    API; the client follows redirects under
    [downloadGitHubTarball_CheckRedirect], given further down, and
    [http_do] stands for the whole exchange *)
Definition downloadGitHubTarball (src : Source) (hash destPath : string)
    (opts : DownloadOptions) : M error :=
  let apiURL := APITarballURL src hash in
  when (DVerbose opts) (emit (Info ("Requesting tarball from API: " +:+ apiURL))) ;;;
  (* Add authorization if token is available *)
  let token := github_token E in
  (if negb (String.eqb token "") then
     if DVerbose opts then
       t <- slice_to token 20 ;;
       emit (Info ("Using GitHub token for authentication (token starts with: "
                   +:+ t +:+ "...)"))
     else ret tt
   else
     when (DVerbose opts)
       (emit (Warning "No GitHub token found - private repos will not be accessible"))) ;;;
  emit (HttpGet apiURL (negb (String.eqb token ""))) ;;;
  match http_do E apiURL (negb (String.eqb token "")) with
  | HttpFailed msg => ret (Some ("failed to request tarball: " +:+ msg))
  | HttpResponse status body =>
      when (DVerbose opts)
        (emit (Info ("Response status: " +:+ GoStrings.Itoa status))) ;;;
      if (status =? 404)%nat then
        ret (Some "repository not found or not accessible (404)")
      else if (status =? 401)%nat then
        ret (Some "unauthorized: invalid or missing GitHub token (401)")
      else if (status =? 403)%nat then
        ret (Some "forbidden: check your GitHub token permissions (403)")
      else if negb (status =? 200)%nat then
        ret (Some ("download failed with status " +:+ GoStrings.Itoa status))
      else saveResponse body destPath
  end.

(** [DownloadTarball] downloads a repository tarball to the specified path *)
Definition DownloadTarball (src : Source) (hash destPath : string)
    (opts : DownloadOptions) : M error :=
  (* For GitHub, try API-based download first *)
  if String.eqb (Site src) "github" then
    err <- downloadGitHubTarball src hash destPath opts ;;
    match err with
    | None => ret None
    | Some err =>
        when (DVerbose opts) (emit (Warning ("API download failed: " +:+ err))) ;;;
        (* Always try direct URL as fallback *)
        when (DVerbose opts) (emit (Info "Trying direct URL download...")) ;;;
        directErr <- downloadPublic (TarballURL src hash) destPath ;;
        match directErr with
        | None => ret None
        | Some directErr =>
            if negb (String.eqb (DToken opts) "") then
              ret (Some ("API download failed: " +:+ err +:+
                         " (direct download also failed: " +:+ directErr +:+ ")"))
            else ret (Some directErr)
        end
    end
  else
    (* For non-GitHub, use direct URL *)
    downloadPublic (TarballURL src hash) destPath.

(** ** The orchestrator (Clone) and the action manifest (actions.go) *)

(** [Options] configures the Degit behavior *)
Record Options := {
  Force : bool;     (* Allow cloning to non-empty directory *)
  Cache : bool;     (* Only use cached files (offline mode) *)
  Mode : string;    (* "tar" or "git" *)
  Verbose : bool;   (* Enable verbose output *)
  Token : string;   (* GitHub token for private repos *)
}.

(** [New] creates a new Degit instance: an empty mode means "tar" *)
Definition New (opts : Options) : Options :=
  if String.eqb (Mode opts) "" then
    {| Force := Force opts; Cache := Cache opts; Mode := "tar";
       Verbose := Verbose opts; Token := Token opts |}
  else opts.

(** [cmd.Run()] of an external command; [true] is a nil error *)
Definition run (argv : list string) : M bool :=
  emit (Exec argv) ;;;
  f <- get_fs ;;
  let '(ok, f') := run_cmd E argv f in
  put_fs f' ;;;
  ret ok.

Definition exit_error : string := "exit status 1".

(** [checkDestEmpty] checks if the destination directory is empty *)
Definition checkDestEmpty (dest : string) : M error :=
  r <- os_ReadDir dest ;;
  match r with
  | inl NotExist => ret None  (* Directory doesn't exist, that's fine *)
  | inl e => ret (Some (io_error "open" dest e))
  | inr entries =>
      if (0 <? length entries)%nat then
        ret (Some ("destination " +:+ dest +:+
                   " is not empty (use --force to override)"))
      else ret None
  end.

(** the references of the remote: [FetchRefsWithToken] for GitHub,
    [FetchRefs] otherwise; what the remote answers is the environment's *)
Definition fetchRemoteRefs (src : Source) : M (list Ref + string) :=
  emit (ListRemote (URL src)) ;;;
  ret (remote_refs E src).

(** [cloneWithTar] clones using tarball download (fast, no git history) *)
Definition cloneWithTar (d : Options) (src : Source) (dest cacheDir : string)
  : M error :=
  (* Try to resolve ref to hash *)
  resolved <-
    (if Cache d then
       (* Only use cache, don't fetch refs *)
       hash <- GetCachedHash cacheDir (Ref_ src) ;;
       if String.eqb hash "" then
         ret (inr ("ref " +:+ Ref_ src +:+ " not found in cache (offline mode)"))
       else ret (inl hash)
     else
       (* Fetch refs from remote *)
       fetched <- fetchRemoteRefs src ;;
       match fetched with
       | inr fetchErr =>
           (* Try fallback to cached hash *)
           hash <- GetCachedHash cacheDir (Ref_ src) ;;
           if String.eqb hash "" then
             ret (inr ("could not fetch refs and no cache available: " +:+ fetchErr))
           else
             when (Verbose d)
               (emit (Warning "Could not fetch refs, using cached version")) ;;;
             ret (inl hash)
       | inl refs =>
           (* Resolve ref to hash *)
           match ResolveRef refs (Ref_ src) with
           | inr err =>
               ret (inr ("could not resolve ref " +:+ Ref_ src +:+ ": " +:+ err))
           | inl hash => ret (inl hash)
           end
       end) ;;
  match resolved with
  | inr err => ret (Some err)
  | inl hash =>
      (if Verbose d then
         h8 <- slice_to hash 8 ;;
         emit (Info ("Resolved " +:+ Ref_ src +:+ " to " +:+ h8))
       else ret tt) ;;;
      (* Check for cached tarball *)
      tarballPath <- GetCachedTarball cacheDir hash ;;
      located <-
        (if String.eqb tarballPath "" then
           if Cache d then
             h8 <- slice_to hash 8 ;;
             ret (inr ("tarball for " +:+ h8 +:+ " not found in cache (offline mode)"))
           else
             (* Download tarball *)
             let tarballPath := GoFilepath.Join [cacheDir; hash +:+ ".tar.gz"] in
             when (Verbose d)
               (emit (Info ("Downloading " +:+ TarballURL src hash))) ;;;
             err <- DownloadTarball src hash tarballPath
                      {| DToken := Token d; DVerbose := Verbose d |} ;;
             match err with
             | Some err => ret (inr ("failed to download tarball: " +:+ err))
             | None => ret (inl tarballPath)
             end
         else
           when (Verbose d) (emit (Info "Using cached tarball")) ;;;
           ret (inl tarballPath)) ;;
      match located with
      | inr err => ret (Some err)
      | inl tarballPath =>
          (* Update cache *)
          err <- UpdateCache cacheDir (Ref_ src) hash ;;
          match err with
          | Some err =>
              when (Verbose d) (emit (Warning ("Failed to update cache: " +:+ err)))
          | None => ret tt
          end ;;;
          (* Extract tarball *)
          when (Verbose d) (emit (Info ("Extracting to " +:+ dest))) ;;;
          let extractOpts := {| StripComponents := 1; ESubdir := Subdir src |} in
          err <- ExtractTarball tarballPath dest extractOpts ;;
          match err with
          | Some err => ret (Some ("failed to extract tarball: " +:+ err))
          | None => ret None
          end
      end
  end.

(** a [for _, entry := range entries] loop that renames each entry from one
    directory into another and returns on the first failure *)
Fixpoint moveEntries (from to : string) (entries : list string) : M error :=
  match entries with
  | [] => ret None
  | entry :: rest =>
      let srcPath := GoFilepath.Join [from; entry] in
      let dstPath := GoFilepath.Join [to; entry] in
      e <- os_Rename srcPath dstPath ;;
      match e with
      | Some e => ret (Some ("failed to move file: " +:+ io_error "rename" srcPath e))
      | None => moveEntries from to rest
      end
  end.

Fixpoint removeEntries (dir : string) (entries : list string) : M unit :=
  match entries with
  | [] => ret tt
  | entry :: rest =>
      _ <- os_RemoveAll (GoFilepath.Join [dir; entry]) ;;
      removeEntries dir rest
  end.

(** [cloneWithGit] clones using git (slower, but works when tarball
    download fails) *)
Definition cloneWithGit (d : Options) (src : Source) (dest : string) : M error :=
  (* Check if git is available *)
  emit (LookPath "git") ;;;
  if negb (git_in_path E) then ret (Some "git not found in PATH")
  else
    (* Try HTTPS first (works with credential helpers), fallback to SSH *)
    let cloneURL := URL src +:+ ".git" in
    when (Verbose d) (emit (Info ("Cloning with git (HTTPS): " +:+ cloneURL))) ;;;
    ok <- run ["git"; "clone"; "--depth"; "1"; cloneURL; dest] ;;
    cloned <-
      (if ok then ret None
       else
         (* Try SSH as fallback *)
         when (Verbose d) (emit (Warning "HTTPS clone failed, trying SSH...")) ;;;
         _ <- os_RemoveAll dest ;;
         ok <- run ["git"; "clone"; "--depth"; "1"; SSH src; dest] ;;
         if ok then ret None
         else ret (Some ("git clone failed (HTTPS: " +:+ exit_error +:+
                         ", SSH: " +:+ exit_error +:+ ")"))) ;;
    match cloned with
    | Some err => ret (Some err)
    | None =>
        (* Checkout specific ref if not HEAD *)
        (if negb (String.eqb (Ref_ src) "HEAD") && negb (String.eqb (Ref_ src) "") then
           ok <- run ["git"; "-C"; dest; "checkout"; Ref_ src] ;;
           if ok then ret tt
           else
             (* Try fetching the ref first *)
             ok <- run ["git"; "-C"; dest; "fetch"; "origin"; Ref_ src] ;;
             if ok then
               ok <- run ["git"; "-C"; dest; "checkout"; Ref_ src] ;;
               when (negb ok)
                 (emit (Warning ("Could not checkout ref " +:+ Ref_ src +:+ ": "
                                 +:+ exit_error)))
             else ret tt
         else ret tt) ;;;
        (* Remove .git directory *)
        let gitDir := GoFilepath.Join [dest; ".git"] in
        e <- os_RemoveAll gitDir ;;
        match e with
        | Some e =>
            emit (Warning ("Failed to remove .git directory: " +:+
                           io_error "unlinkat" gitDir e))
        | None => ret tt
        end ;;;
        (* Handle subdirectory extraction for git mode *)
        if negb (String.eqb (Subdir src) "") then
          let subdir := GoFilepath.Join [dest; Subdir src] in
          (* Create temp directory *)
          t <- os_MkdirTemp "degit-subdir-" ;;
          match t with
          | inl e =>
              ret (Some ("failed to create temp directory: " +:+
                         io_error "mkdir" (temp_dir E) e))
          | inr tempDir =>
              (* the deferred os.RemoveAll(tempDir) runs on every return *)
              let finish (res : error) : M error :=
                _ <- os_RemoveAll tempDir ;; ret res in
              (* Move subdirectory contents to temp *)
              r <- os_ReadDir subdir ;;
              match r with
              | inl e =>
                  finish (Some ("subdirectory " +:+ Subdir src +:+ " not found: "
                                +:+ io_error "open" subdir e))
              | inr entries =>
                  m <- moveEntries subdir tempDir entries ;;
                  match m with
                  | Some err => finish (Some err)
                  | None =>
                      (* Clear destination *)
                      r <- os_ReadDir dest ;;
                      removeEntries dest (match r with inr es => es | inl _ => [] end) ;;;
                      (* Move temp contents to destination *)
                      r <- os_ReadDir tempDir ;;
                      m <- moveEntries tempDir dest
                             (match r with inr es => es | inl _ => [] end) ;;
                      finish m
                  end
              end
          end
        else ret None
    end.

(** [json.Unmarshal(data, &actions)] for a [[]Action] *)
Definition json_Unmarshal_actions (data : FileData) : list Action + string :=
  match data with
  | DJsonNull => inl []
  | DJsonActions l => inl l
  | _ => inr "json: cannot unmarshal into Go value of type []degit.Action"
  end.

(** [LoadActions] loads actions from degit.json in the destination
    directory *)
Definition LoadActions (destDir : string) : M (list Action + string) :=
  let actionsPath := GoFilepath.Join [destDir; "degit.json"] in
  r <- os_ReadFile actionsPath ;;
  match r with
  | inl NotExist => ret (inl [])  (* No actions file *)
  | inl e => ret (inr (io_error "open" actionsPath e))
  | inr data =>
      match json_Unmarshal_actions data with
      | inr err => ret (inr ("failed to parse degit.json: " +:+ err))
      | inl actions =>
          (* Remove the degit.json file after loading *)
          _ <- os_Remove actionsPath ;;
          ret (inl actions)
      end
  end.

(** [hasPrefix] checks if path has the given prefix *)
Definition hasPrefix (path prefix : string) : bool :=
  let path := GoFilepath.Clean path in
  let prefix := GoFilepath.Clean prefix in
  String.eqb path prefix ||
  ((String.length prefix <? String.length path)%nat &&
   match String.get (String.length prefix) path with
   | Some c => Ascii.eqb c GoFilepath.Separator
   | None => false
   end &&
   String.eqb (GoStrings.take_bytes (String.length prefix) path) prefix).

(** the [for _, file := range action.Files] loop of [executeRemoveAction] *)
Fixpoint removeFiles (files : list string) (destDir : string) : M error :=
  match files with
  | [] => ret None
  | file :: rest =>
      let continue := removeFiles rest destDir in
      let filePath := GoFilepath.Join [destDir; file] in
      (* Security check: prevent path traversal *)
      let cleanPath := GoFilepath.Clean filePath in
      if negb (hasPrefix cleanPath (GoFilepath.Clean destDir)) then
        emit (Warning ("Skipping path traversal attempt: " +:+ file)) ;;;
        continue
      else
        (* Check if file exists *)
        r <- os_Stat filePath ;;
        match r with
        | inl NotExist =>
            emit (Warning ("File does not exist: " +:+ file)) ;;;
            continue
        | inl e => ret (Some (io_error "stat" filePath e))
        | inr info =>
            (* Remove file or directory *)
            match info with
            | Dir _ =>
                e <- os_RemoveAll filePath ;;
                match e with
                | Some e =>
                    ret (Some ("failed to remove directory " +:+ file +:+ ": " +:+
                               io_error "unlinkat" filePath e))
                | None =>
                    emit (Info ("Removed directory: " +:+ file)) ;;;
                    continue
                end
            | _ =>
                e <- os_Remove filePath ;;
                match e with
                | Some e =>
                    ret (Some ("failed to remove file " +:+ file +:+ ": " +:+
                               io_error "remove" filePath e))
                | None =>
                    emit (Info ("Removed file: " +:+ file)) ;;;
                    continue
                end
            end
        end
  end.

(** [executeRemoveAction] executes a remove action (removes specified
    files) *)
Definition executeRemoveAction (action : Action) (destDir : string) : M error :=
  if (length (Files action) =? 0)%nat then ret None
  else removeFiles (Files action) destDir.

(** [executeCloneAction] executes a clone action (clones another repo into
    the same destination); [Clone] is the orchestrator it calls back *)
Definition executeCloneAction (Clone : Options -> Source -> string -> M error)
    (action : Action) (destDir : string) (degitInst : Options) : M error :=
  if String.eqb (Src action) "" then
    ret (Some "clone action requires 'src' field")
  else
    emit (Info ("Cloning additional source: " +:+ Src action)) ;;;
    (* Parse the source *)
    match ParseSource (Src action) with
    | inr err => ret (Some err)
    | inl src =>
        (* Create a new degit instance for the nested clone *)
        let nestedDegit :=
          New {| Force := true;  (* Force for nested clones *)
                 Cache := ACache action;
                 Verbose := AVerbose action;
                 Token := Token degitInst;
                 Mode := Mode degitInst |} in
        (* Clone to the same destination (will merge) *)
        Clone nestedDegit src destDir
    end.

(** the [for i, action := range actions] loop of [ExecuteActions], from
    index [i] on *)
Fixpoint executeFrom (Clone : Options -> Source -> string -> M error)
    (i : nat) (actions : list Action) (destDir : string) (degitInst : Options)
  : M error :=
  match actions with
  | [] => ret None
  | action :: rest =>
      let continue := executeFrom Clone (S i) rest destDir degitInst in
      if String.eqb (Action_ action) "clone" then
        err <- executeCloneAction Clone action destDir degitInst ;;
        match err with
        | Some err =>
            ret (Some ("action " +:+ GoStrings.Itoa i +:+ " (clone): " +:+ err))
        | None => continue
        end
      else if String.eqb (Action_ action) "remove" then
        err <- executeRemoveAction action destDir ;;
        match err with
        | Some err =>
            ret (Some ("action " +:+ GoStrings.Itoa i +:+ " (remove): " +:+ err))
        | None => continue
        end
      else
        emit (Warning ("Unknown action: " +:+ Action_ action)) ;;;
        continue
  end.

(** [ExecuteActions] executes a list of actions *)
Definition ExecuteActions (Clone : Options -> Source -> string -> M error)
    (actions : list Action) (destDir : string) (degitInst : Options) : M error :=
  if (length actions =? 0)%nat then ret None
  else executeFrom Clone 0 actions destDir degitInst.

(** the first half of [Clone], up to [if err != nil { return err }]: the
    destination check and the acquisition in the chosen mode *)
Definition acquire (d : Options) (src : Source) (dest : string) : M error :=
  (* Check if destination is empty *)
  checked <- (if negb (Force d) then checkDestEmpty dest else ret None) ;;
  match checked with
  | Some err => ret (Some err)
  | None =>
      (* Get cache directory *)
      let cacheDir := GetRepoCacheDir src in
      (* Clone based on mode *)
      if String.eqb (Mode d) "git" then cloneWithGit d src dest
      else
        err <- cloneWithTar d src dest cacheDir ;;
        (* If tar mode fails, automatically try git mode as fallback *)
        match err with
        | None => ret None
        | Some err =>
            (if Verbose d then
               emit (Warning ("Tarball download failed: " +:+ err)) ;;;
               emit (Info "Falling back to git clone mode...")
             else ret tt) ;;;
            (* Clean up any partial extraction *)
            _ <- os_RemoveAll dest ;;
            gitErr <- cloneWithGit d src dest ;;
            match gitErr with
            | Some gitErr =>
                ret (Some ("tarball download failed (" +:+ err +:+
                           ") and git clone also failed (" +:+ gitErr +:+ ")"))
            | None => ret None  (* Git clone succeeded *)
            end
        end
  end.

(** the second half of [Clone]: execute actions from degit.json if
    present *)
Definition runManifest (Clone : Options -> Source -> string -> M error)
    (d : Options) (dest : string) : M error :=
  loaded <- LoadActions dest ;;
  match loaded with
  | inr loadErr =>
      emit (Warning ("Failed to load degit.json: " +:+ loadErr)) ;;;
      ret None
  | inl actions =>
      if (0 <? length actions)%nat then
        when (Verbose d)
          (emit (Info ("Executing " +:+ GoStrings.Itoa (length actions) +:+
                       " actions from degit.json"))) ;;;
        execErr <- ExecuteActions Clone actions dest d ;;
        match execErr with
        | Some execErr => ret (Some ("failed to execute actions: " +:+ execErr))
        | None => ret None
        end
      else ret None
  end.

(** [Clone] clones a repository to the destination directory.  A clone
    action calls [Clone] again; [fuel] bounds how deep such calls nest, and
    running out of it is [Diverge]. *)
Fixpoint Clone (fuel : nat) (d : Options) (src : Source) (dest : string)
  : M error :=
  match fuel with
  | O => fun _ => Diverge
  | S fuel' =>
      err <- acquire d src dest ;;
      match err with
      | Some err => ret (Some err)
      | None => runManifest (Clone fuel') d dest
      end
  end.

End WithEnv.

(** ** Redirect handlers (the [CheckRedirect] closures) *)










(** ** The resolution order as the specification words it

    Rules are tried in turn and the first match wins: exact branch, exact
    tag, commit-id prefix of length 8 or more, 40 hexadecimal characters
    taken verbatim; an empty or "HEAD" name asks for the symbolic head. *)

Definition commits_where (p : Ref -> bool) (refs : list Ref) : list string :=
  map Hash (List.filter p refs).

Definition head_rule (refs : list Ref) : option string :=
  hd_error (commits_where (fun r => String.eqb (Type_ r) "HEAD") refs).

Definition branch_rule (name : string) (refs : list Ref) : option string :=
  hd_error (commits_where
              (fun r => String.eqb (Type_ r) "branch" && String.eqb (Name r) name)
              refs).

Definition tag_rule (name : string) (refs : list Ref) : option string :=
  hd_error (commits_where
              (fun r => String.eqb (Type_ r) "tag" && String.eqb (Name r) name)
              refs).

Definition prefix_rule (name : string) (refs : list Ref) : option string :=
  if (8 <=? String.length name)%nat
  then hd_error (commits_where (fun r => GoStrings.HasPrefix (Hash r) name) refs)
  else None.

Definition verbatim_rule (name : string) (refs : list Ref) : option string :=
  if (String.length name =? 40)%nat && isHex name then Some name else None.

Fixpoint first_match (rules : list (list Ref -> option string)) (refs : list Ref)
  : option string :=
  match rules with
  | [] => None
  | rule :: others =>
      match rule refs with
      | Some h => Some h
      | None => first_match others refs
      end
  end.

Definition resolve_cascade (refs : list Ref) (name : string) : string + string :=
  if String.eqb name "" || String.eqb name "HEAD" then
    match head_rule refs with
    | Some h => inl h
    | None => inr err_no_head
    end
  else
    match first_match [branch_rule name; tag_rule name; prefix_rule name;
                       verbatim_rule name] refs with
    | Some h => inl h
    | None => inr (err_unresolved name)
    end.

(** the reference list of the worked example *)
Definition sample_refs : list Ref :=
  [ {| Type_ := "HEAD"; Name := "HEAD"; Hash := "aaaa1111" |};
    {| Type_ := "branch"; Name := "main"; Hash := "aaaa1111" |};
    {| Type_ := "tag"; Name := "v1"; Hash := "bbbb2222" |} ].

(** the descriptor of github.com/user/repo at its default reference *)
Definition user_repo : Source :=
  {| Site := "github"; Owner := "user"; Repo := "repo"; Ref_ := "HEAD";
     Subdir := ""; URL := "https://github.com/user/repo";
     SSH := "git@github.com:user/repo" |}.

(** ** Sample environments and worlds *)

Arguments stat_from : simpl never.
Arguments GoFilepath.Clean : simpl never.
Arguments GoFilepath.Join : simpl never.
Arguments GoFilepath.Dir : simpl never.
Arguments under : simpl never.
Arguments children : simpl never.
Arguments ancestors : simpl never.

(** no faults, no network answer, a [git] binary whose commands succeed
    and leave the files as they are *)
Definition calm : Env := {|
  user_home_dir := Some "/home/u";
  temp_dir := "/tmp";
  temp_name := "0001";
  now_rfc3339 := "2024-05-01T10:00:00Z";
  io_fault := fun _ _ => false;
  github_token := "";
  remote_refs := fun _ => inr "could not fetch refs";
  http_do := fun _ _ => HttpFailed "no route to host";
  git_in_path := true;
  run_cmd := fun _ f => (true, f);
|}.

(** a cache directory where only "main" points at the archived commit *)
Definition one_ref_cache : World := {|
  fs := list_to_map
          [ ("/c", Dir 493);
            ("/c/map.json", File 420 (DJsonObject {[ "main" := "1111aaaa" ]}));
            ("/c/1111aaaa.tar.gz", File 420 (DTarGz [] true)) ];
  journal := [];
|}.

(** [keeps m]: running [m] removes no node *)
Definition keeps {A} (m : M A) : Prop :=
  forall w a w', m w = Return a w' ->
    forall p, is_Some (fs w !! p) -> is_Some (fs w' !! p).

(** [pure_read m]: running [m] leaves the world as it is *)
Definition pure_read {A} (m : M A) : Prop :=
  forall w a w', m w = Return a w' -> w' = w.

(** an entry that climbs out of its root folder into a sibling of the
    destination, and a link entry whose target is in that sibling *)
Definition sibling_file : TarHeader :=
  {| TName := "repo-abc/../out-evil/f"; TTypeflag := TypeReg; TMode := 420;
     TLinkname := "" |}.

Definition sibling_link : TarHeader :=
  {| TName := "repo-abc/link"; TTypeflag := TypeSymlink; TMode := 511;
     TLinkname := "../out-evil/secret" |}.

(** a cache directory holding one archive with the given entries *)
Definition archive_world (entries : list (TarHeader * FileData)) : World := {|
  fs := list_to_map
          [ ("/c", Dir 493);
            ("/c/t.tar.gz", File 420 (DTarGz entries true)) ];
  journal := [];
|}.

Definition strip_one : ExtractOptions := {| StripComponents := 1; ESubdir := "" |}.

(** the world with everything at or below [root] gone *)
Definition wiped (root : string) (note : Event) (w : World) : World := {|
  fs := filter (fun kv => under root kv.1 = false) (fs w);
  journal := note :: journal w;
|}.

(** a populated destination *)
Definition populated : World := {|
  fs := list_to_map
          [ ("/work", Dir 493);
            ("/work/repo", Dir 493);
            ("/work/repo/README.md", File 420 (DBytes "hello"));
            ("/work/repo/src", Dir 493);
            ("/work/repo/src/main.go", File 420 (DBytes "package main"));
            ("/work/repo-notes", File 420 (DBytes "keep")) ];
  journal := [];
|}.

(** [steady m]: [m] always returns, and only adds to the journal *)
Definition steady {A} (m : M A) : Prop :=
  forall w, exists a w', m w = Return a w' /\
    exists notes, journal w' = notes ++ journal w.

(** offline (cache-only) options in the default mode *)
Definition offline : Options :=
  {| Force := false; Cache := true; Mode := "tar"; Verbose := false; Token := "" |}.

(** a work directory and nothing else: no cache, no destination *)
Definition bare : World := {|
  fs := {[ "/work" := Dir 493 ]};
  journal := [];
|}.

(** full-clone mode into a destination that may hold files *)
Definition git_mode : Options :=
  {| Force := true; Cache := false; Mode := "git"; Verbose := false; Token := "" |}.

(** a destination as an acquisition leaves it, with a manifest of the
    given content *)
Definition manifest_world (data : FileData) : World := {|
  fs := list_to_map
          [ ("/work", Dir 493);
            ("/work/repo", Dir 493);
            ("/work/repo/README.md", File 420 (DBytes "hello"));
            ("/work/repo/degit.json", File 420 data) ];
  journal := [];
|}.

(** what [calm]'s git leaves in the journal for github.com/user/repo *)
Definition after_git (w : World) : World := {|
  fs := fs w;
  journal := [ Exec ["git"; "clone"; "--depth"; "1";
                     "https://github.com/user/repo.git"; "/work/repo"];
               LookPath "git" ] ++ journal w;
|}.

Definition remove_readme : Action :=
  {| Action_ := "remove"; Src := ""; Files := ["README.md"]; ACache := false;
     AVerbose := false |}.

Definition unknown_kind : Action :=
  {| Action_ := "frobnicate"; Src := ""; Files := []; ACache := false;
     AVerbose := false |}.

Definition clone_without_src : Action :=
  {| Action_ := "clone"; Src := ""; Files := []; ACache := false;
     AVerbose := false |}.

(** the world in which the actions start: the manifest's count is
    announced in verbose mode *)
Definition announced (d : Options) (count : nat) (w : World) : World :=
  if Verbose d then
    {| fs := fs w;
       journal := Info ("Executing " +:+ GoStrings.Itoa count +:+
                        " actions from degit.json") :: journal w |}
  else w.

(** the world after a note in the journal *)
Definition noted (e : Event) (w : World) : World :=
  {| fs := fs w; journal := e :: journal w |}.

Definition entry (name : string) (kind : Typeflag) (body : string)
  : TarHeader * FileData :=
  ({| TName := name; TTypeflag := kind; TMode := 420; TLinkname := "" |},
   DBytes body).

(** a cache seeded with the mapping v1.0.0 -> 1111aaaa2222 and that
    commit's archive *)
Definition seeded : World := {|
  fs := list_to_map
          [ ("/home/u/.ss/cache/degit/github/user/repo", Dir 493);
            ("/home/u/.ss/cache/degit/github/user/repo/map.json",
             File 420 (DJsonObject {[ "v1.0.0" := "1111aaaa2222" ]}));
            ("/home/u/.ss/cache/degit/github/user/repo/1111aaaa2222.tar.gz",
             File 420
               (DTarGz [ entry "repo-1111aaa/" TypeDir "";
                         entry "repo-1111aaa/README.md" TypeReg "hi";
                         entry "repo-1111aaa/src/" TypeDir "";
                         entry "repo-1111aaa/src/a.go" TypeReg "package a" ]
                       true));
            ("/work", Dir 493) ];
  journal := [];
|}.

(** a cache whose archive for HEAD holds an entry named ../../etc/passwd *)
Definition hostile : World := {|
  fs := list_to_map
          [ ("/home/u/.ss/cache/degit/github/user/repo", Dir 493);
            ("/home/u/.ss/cache/degit/github/user/repo/map.json",
             File 420 (DJsonObject {[ "HEAD" := "1111aaaa2222" ]}));
            ("/home/u/.ss/cache/degit/github/user/repo/1111aaaa2222.tar.gz",
             File 420 (DTarGz [ entry "../../etc/passwd" TypeReg "x" ] true));
            ("/work", Dir 493) ];
  journal := [];
|}.

Definition verbose_tar : Options :=
  {| Force := false; Cache := false; Mode := "tar"; Verbose := true; Token := "" |}.

(** what an outcome returned, logged, and left at a path *)
Definition returned {A} (o : Outcome A) : option A :=
  match o with Return a _ => Some a | _ => None end.

Definition logged {A} (o : Outcome A) : list Event :=
  match o with Return _ w | Panic _ w => journal w | Diverge => [] end.

Definition left_at {A} (o : Outcome A) (p : string) : option Node :=
  match o with Return _ w | Panic _ w => fs w !! p | Diverge => None end.

(* ===================================================================== *)
(** * Properties *)

(** ** The models on known values *)

Example Clean_examples :
  map GoFilepath.Clean
    ["/tmp/out/../out-evil/f"; "a//b/./c/.."; "../../x"; "/.."; ""; "a/.."; "/tmp/out/"]
  = ["/tmp/out-evil/f"; "a/b"; "../../x"; "/"; "."; "."; "/tmp/out"].
Proof. vm_compute; reflexivity. Qed.

Example Join_examples :
  map GoFilepath.Join
    [["/tmp/out"; "../out-evil/f"]; [""; ""]; ["a"; ""]; [""; "b"; "c"]; ["."; "b"]]
  = ["/tmp/out-evil/f"; ""; "a"; "b/c"; "b"].
Proof. vm_compute; reflexivity. Qed.

Example Dir_examples :
  map GoFilepath.Dir ["/tmp/out/link"; "file"; "/x"; "a/b/"]
  = ["/tmp/out"; "."; "/"; "a/b"].
Proof. vm_compute; reflexivity. Qed.

Example ParseSource_examples :
  map ParseSource ["user/repo#dev"; "git@gitlab.com:o/r.git"; "user/repo/src/components";
                   "https://bitbucket.org/a/b/#v1"; "nope"; "example.com/a/b"]
  = [ inl {| Site := "github"; Owner := "user"; Repo := "repo"; Ref_ := "dev";
             Subdir := ""; URL := "https://github.com/user/repo";
             SSH := "git@github.com:user/repo" |};
      inl {| Site := "gitlab"; Owner := "o"; Repo := "r"; Ref_ := "HEAD";
             Subdir := ""; URL := "https://gitlab.com/o/r";
             SSH := "git@gitlab.com:o/r" |};
      inl {| Site := "github"; Owner := "user"; Repo := "repo"; Ref_ := "HEAD";
             Subdir := "/src/components"; URL := "https://github.com/user/repo";
             SSH := "git@github.com:user/repo" |};
      inl {| Site := "bitbucket"; Owner := "a"; Repo := "b"; Ref_ := "v1";
             Subdir := ""; URL := "https://bitbucket.org/a/b";
             SSH := "git@bitbucket.org:a/b" |};
      inr "could not parse source: nope";
      inr "unsupported host: example (supported: github, gitlab, bitbucket, git.sr.ht)" ].
Proof. vm_compute; reflexivity. Qed.

Example stripPath_examples :
  map (fun p => stripPath p 1)
    ["repo-abc/"; "repo-abc/a/b.txt"; "repo-abc"; "../../etc/passwd"]
  = [""; "a/b.txt"; ""; "../etc/passwd"].
Proof. vm_compute; reflexivity. Qed.

Example containsSubdir_examples :
  map (fun p => containsSubdir p "src/components")
    ["repo-abc/src/components/x"; "repo-abc/src/components";
     "repo-abc/src/componentsX"; "repo-abc"]
  = [true; true; false; false].
Proof. vm_compute; reflexivity. Qed.

Example hasPrefix_examples :
  map (fun p => hasPrefix p "/tmp/out")
    ["/tmp/out"; "/tmp/out/a"; "/tmp/out-evil"; "/tmp"; "/tmp/out/../x"]
  = [true; true; false; false; false].
Proof. vm_compute; reflexivity. Qed.

(** an entry named ../../etc/passwd is refused and nothing is extracted *)
Example ExtractTarball_refuses_dotdot :
  ExtractTarball calm "/c/t.tar.gz" "/tmp/out" strip_one
    (archive_world [entry "../../etc/passwd" TypeReg "x"; entry "r/a" TypeReg "y"])
  = Return (Some "path traversal detected: ../../etc/passwd")
      {| fs := <["/tmp/out" := Dir 493]> (<["/tmp" := Dir 493]>
                 (fs (archive_world [entry "../../etc/passwd" TypeReg "x";
                                     entry "r/a" TypeReg "y"])));
         journal := [] |}.
Proof. vm_compute; reflexivity. Qed.

(** offline mode with a seeded cache: the tree is extracted and nothing
    outside the file system is asked *)
Example Clone_offline_cache_hit :
  let run :=
    Clone calm 1 offline
      {| Site := "github"; Owner := "user"; Repo := "repo"; Ref_ := "v1.0.0";
         Subdir := ""; URL := "https://github.com/user/repo";
         SSH := "git@github.com:user/repo" |}
      "/work/repo" seeded in
  returned run = Some None /\
  logged run = [] /\
  left_at run "/work/repo/README.md" = Some (File 420 (DBytes "hi")) /\
  left_at run "/work/repo/src/a.go" = Some (File 420 (DBytes "package a")) /\
  ParseSource "user/repo#v1.0.0"
    = inl {| Site := "github"; Owner := "user"; Repo := "repo"; Ref_ := "v1.0.0";
             Subdir := ""; URL := "https://github.com/user/repo";
             SSH := "git@github.com:user/repo" |}.
Proof. vm_compute. do 4 (split; [reflexivity|]). reflexivity. Qed.

(** a destination that holds a file is refused without the force flag *)
Example Clone_destination_not_empty :
  Clone calm 1 offline user_repo "/work/repo" populated
  = Return (Some "destination /work/repo is not empty (use --force to override)")
      populated.
Proof. vm_compute; reflexivity. Qed.

(** ** Reference resolution *)

Lemma first_hash_filter (p : Ref -> bool) (refs : list Ref) :
  hd_error (commits_where p refs) = first_hash p refs.
Proof.
  unfold commits_where, first_hash.
  induction refs as [|r refs IH]; simpl; [reflexivity|].
  destruct (p r); simpl; [reflexivity | exact IH].
Qed.

(** C4, as the code has it: on an empty reference list [ResolveRef] gives
    the no-HEAD error for an empty or "HEAD" name, hands back a name of
    exactly 40 hexadecimal characters as the commit identifier, and gives
    the unresolved-reference error for every other name. *)
Theorem ResolveRef_empty_refs (refName : string) :
  ResolveRef [] refName =
    if String.eqb refName "" || String.eqb refName "HEAD" then inr err_no_head
    else if (String.length refName =? 40)%nat && isHex refName then inl refName
    else inr (err_unresolved refName).
Proof.
  unfold ResolveRef, first_hash; simpl.
  destruct (String.eqb refName "" || String.eqb refName "HEAD"); [reflexivity|].
  match goal with
  | |- context [if ?b then None else None] => destruct b
  end; reflexivity.
Qed.

(** C4 as stated fails: a full 40-character hexadecimal name resolves to
    itself although no reference is known. *)
Lemma ResolveRef_empty_refs_full_hash :
  ResolveRef [] "0123456789abcdef0123456789abcdef01234567"
    = inl "0123456789abcdef0123456789abcdef01234567" /\
  ~ (forall refName, exists msg, ResolveRef [] refName = inr msg).
Proof.
  split; [reflexivity|].
  intros H.
  destruct (H "0123456789abcdef0123456789abcdef01234567") as [msg Hmsg].
  vm_compute in Hmsg. discriminate Hmsg.
Qed.

(** C5: the worked example resolves as listed, and on every input
    [ResolveRef] follows the order symbolic head, exact branch, exact tag,
    prefix of length 8 or more, 40 hexadecimal characters verbatim. *)
Theorem ResolveRef_sample_and_order :
  ResolveRef sample_refs "" = inl "aaaa1111" /\
  ResolveRef sample_refs "HEAD" = inl "aaaa1111" /\
  ResolveRef sample_refs "main" = inl "aaaa1111" /\
  ResolveRef sample_refs "v1" = inl "bbbb2222" /\
  ResolveRef sample_refs "bbbb222" = inr (err_unresolved "bbbb222") /\
  String.length "bbbb222" = 7%nat /\
  ResolveRef sample_refs "bbbb2222" = inl "bbbb2222" /\
  branch_rule "bbbb2222" sample_refs = None /\
  tag_rule "bbbb2222" sample_refs = None /\
  prefix_rule "bbbb2222" sample_refs = Some "bbbb2222" /\
  forall refs refName, ResolveRef refs refName = resolve_cascade refs refName.
Proof.
  do 10 (split; [reflexivity|]).
  intros refs refName.
  unfold ResolveRef, resolve_cascade, head_rule, first_match.
  unfold branch_rule, tag_rule, prefix_rule, verbatim_rule.
  rewrite !first_hash_filter.
  destruct (String.eqb refName "" || String.eqb refName "HEAD"); [reflexivity|].
  destruct (first_hash _ refs); [reflexivity|].
  destruct (first_hash _ refs); [reflexivity|].
  destruct (8 <=? String.length refName)%nat.
  - destruct (first_hash _ refs); [reflexivity|].
    destruct ((String.length refName =? 40)%nat && isHex refName); reflexivity.
  - destruct ((String.length refName =? 40)%nat && isHex refName); reflexivity.
Qed.

(** ** Source parsing *)

Lemma take_bytes_app (x y : string) :
  GoStrings.take_bytes (String.length x) (x +:+ y) = x.
Proof. induction x as [|c x IH]; simpl; [destruct y; reflexivity | now rewrite IH]. Qed.

Lemma drop_bytes_app (x y : string) :
  GoStrings.drop_bytes (String.length x) (x +:+ y) = y.
Proof. induction x as [|c x IH]; simpl; [reflexivity | exact IH]. Qed.

Lemma length_app_string (x y : string) :
  String.length (x +:+ y) = (String.length x + String.length y)%nat.
Proof. induction x as [|c x IH]; simpl; [reflexivity | now rewrite IH]. Qed.

Lemma TrimSuffix_app (x suf : string) :
  GoStrings.TrimSuffix (x +:+ suf) suf = x.
Proof.
  unfold GoStrings.TrimSuffix, GoStrings.HasSuffix.
  rewrite length_app_string.
  replace (String.length x + String.length suf - String.length suf)%nat
    with (String.length x) by lia.
  rewrite drop_bytes_app, String.eqb_refl, take_bytes_app.
  destruct (String.length suf <=? String.length x + String.length suf)%nat eqn:Hle;
    [reflexivity|].
  apply Nat.leb_gt in Hle. lia.
Qed.

(** C8, as the code has it: the three spellings of github.com/user/repo
    parse to one and the same descriptor, and the repository name is the
    repo segment with one trailing ".git" removed, so that "repo.git"
    gives "repo" while a segment ending in ".git.git" keeps one ".git". *)
Theorem ParseSource_normalizes :
  ParseSource "user/repo" = inl user_repo /\
  ParseSource "github:user/repo" = inl user_repo /\
  ParseSource "https://github.com/user/repo" = inl user_repo /\
  ParseSource "user/repo.git" = inl user_repo /\
  (forall src s, ParseSource src = inl s ->
     exists m, GoRegexp.FindStringSubmatch sourceRegex 7 src = Some m /\
               Repo s = GoStrings.TrimSuffix (match_at m 5) ".git") /\
  (forall name, GoStrings.TrimSuffix (name +:+ ".git") ".git" = name).
Proof.
  do 4 (split; [vm_compute; reflexivity|]).
  split; [|intros name; apply TrimSuffix_app].
  intros src s. unfold ParseSource.
  generalize (GoRegexp.FindStringSubmatch sourceRegex 7 src).
  intros [m|] H; [|discriminate H].
  exists m. split; [reflexivity|].
  destruct (negb (supportedHosts _)) in H; [discriminate H|].
  injection H as <-. reflexivity.
Qed.

Lemma ParseSource_normalizes_witness :
  ParseSource "git@github.com:user/repo.git" = inl user_repo /\
  exists m, GoRegexp.FindStringSubmatch sourceRegex 7 "git@github.com:user/repo.git"
              = Some m /\
            Repo user_repo = GoStrings.TrimSuffix (match_at m 5) ".git".
Proof.
  assert (H : ParseSource "git@github.com:user/repo.git" = inl user_repo)
    by (vm_compute; reflexivity).
  split; [exact H|].
  exact (proj1 (proj2 (proj2 (proj2 (proj2 ParseSource_normalizes))))
           "git@github.com:user/repo.git" user_repo H).
Defined.

(** C8 as stated fails: the repository name can still carry the suffix. *)
Lemma ParseSource_keeps_second_git_suffix :
  ParseSource "user/repo.git.git"
    = inl {| Site := "github"; Owner := "user"; Repo := "repo.git";
             Ref_ := "HEAD"; Subdir := "";
             URL := "https://github.com/user/repo.git";
             SSH := "git@github.com:user/repo.git" |} /\
  GoStrings.HasSuffix "repo.git" ".git" = true.
Proof. split; vm_compute; reflexivity. Qed.

(** ** Redirects *)





(** ** The monad *)

Lemma bind_Return {A B} (m : M A) (k : A -> M B) w b w' :
  bind m k w = Return b w' ->
  exists a w1, m w = Return a w1 /\ k a w1 = Return b w'.
Proof.
  unfold bind. destruct (m w) as [a w1| |]; [|discriminate..].
  intros H. exists a, w1. split; [reflexivity | exact H].
Qed.

Lemma keeps_ret {A} (a : A) : keeps (ret a).
Proof. intros w a' w' H p Hp. unfold ret in H. by simplify_eq. Qed.

Lemma keeps_bind {A B} (m : M A) (k : A -> M B) :
  keeps m -> (forall a, keeps (k a)) -> keeps (bind m k).
Proof.
  intros Hm Hk w b w' H p Hp.
  apply bind_Return in H as (a & w1 & H1 & H2).
  eapply Hk; [exact H2|]. eapply Hm; [exact H1 | exact Hp].
Qed.

Lemma keeps_pure_read {A} (m : M A) : pure_read m -> keeps m.
Proof. intros Hm w a w' H p Hp. by rewrite (Hm _ _ _ H). Qed.

Lemma keeps_panic {A} msg : keeps (@panic A msg).
Proof. intros w a w' H. discriminate H. Qed.

Lemma keeps_emit e : keeps (emit e).
Proof. intros w a w' H p Hp. unfold emit in H. by simplify_eq. Qed.

Lemma keeps_when b m : keeps m -> keeps (when b m).
Proof. intros Hm. destruct b; [exact Hm | apply keeps_ret]. Qed.

(** ** The file system calls that never remove *)

Lemma os_ReadFile_pure E path : pure_read (os_ReadFile E path).
Proof.
  intros w a w' H. unfold os_ReadFile, bind, get_fs, ret in H.
  repeat case_match; congruence.
Qed.

Lemma os_Stat_pure E path : pure_read (os_Stat E path).
Proof.
  intros w a w' H. unfold os_Stat, bind, get_fs, ret in H.
  repeat case_match; congruence.
Qed.

Lemma mkdir_chain_keeps (perm : Z) (chain : list string) (f : gmap string Node) p :
  is_Some (f !! p) ->
  is_Some (fold_right
             (fun d g => if exists_node g d then g else <[d := Dir perm]> g)
             f chain !! p).
Proof.
  intros Hp. induction chain as [|d chain IH]; simpl; [exact Hp|].
  destruct (exists_node _ d); [exact IH|].
  apply lookup_insert_is_Some'. by right.
Qed.

Lemma os_MkdirAll_keeps E path perm : keeps (os_MkdirAll E path perm).
Proof.
  intros w a w' H p Hp. unfold os_MkdirAll, bind, get_fs, put_fs, ret in H.
  repeat case_match; simplify_eq; cbn [fs]; try done.
  by apply (mkdir_chain_keeps perm (_ :: _)).
Qed.

Lemma os_WriteFile_keeps E path data perm : keeps (os_WriteFile E path data perm).
Proof.
  intros w a w' H p Hp. unfold os_WriteFile, bind, get_fs, put_fs, ret in H.
  repeat case_match; simplify_eq; cbn [fs]; try done;
    apply lookup_insert_is_Some'; by right.
Qed.

(** ** The reference cache *)

Lemma load_json_map_pure E path : pure_read (load_json_map E path).
Proof.
  intros w a w' H. unfold load_json_map in H.
  apply bind_Return in H as (r & w1 & H1 & H2).
  apply os_ReadFile_pure in H1 as ->.
  unfold ret in H2. repeat case_match; by simplify_eq.
Qed.

Lemma save_json_map_keeps E cacheDir file m : keeps (save_json_map E cacheDir file m).
Proof.
  unfold save_json_map.
  apply keeps_bind; [apply os_MkdirAll_keeps|].
  intros [e|]; [apply keeps_ret|].
  apply keeps_bind; [apply os_WriteFile_keeps|].
  intros [e|]; apply keeps_ret.
Qed.

Lemma map_set_keeps m k v : keeps (map_set m k v).
Proof. destruct m; [apply keeps_panic | apply keeps_ret]. Qed.

(** The loop that looks for another user of the old commit also meets the
    entry of [ref] itself, so it always finds one. *)
Lemma hashInUse_self (refMap : GoMap) (ref : string) :
  map_get refMap ref <> "" -> hashInUse refMap (map_get refMap ref) = true.
Proof.
  unfold map_get, hashInUse. intros Hne.
  destruct (map_entries refMap !! ref) as [h|] eqn:Hlook; simpl in *; [|done].
  apply existsb_exists. exists (ref, h). split.
  - apply list_elem_of_In, elem_of_map_to_list. exact Hlook.
  - apply String.eqb_refl.
Qed.

Lemma UpdateCache_keeps E cacheDir ref hash : keeps (UpdateCache E cacheDir ref hash).
Proof.
  unfold UpdateCache.
  apply keeps_bind; [apply keeps_pure_read, load_json_map_pure|]. intros r.
  apply keeps_bind; [apply keeps_pure_read, load_json_map_pure|]. intros a.
  apply keeps_bind; [apply map_set_keeps|]. intros accessLog.
  apply keeps_bind; [apply save_json_map_keeps|]. intros [e|]; [apply keeps_ret|].
  set (refMap := match r with inl m => m | inr _ => MkMap ∅ end).
  destruct (String.eqb (map_get refMap ref) hash); [apply keeps_ret|].
  apply keeps_bind.
  - destruct (String.eqb (map_get refMap ref) "") eqn:Hold; simpl;
      [apply keeps_ret|].
    rewrite hashInUse_self; [apply keeps_ret|].
    intros Heq. rewrite Heq in Hold. discriminate Hold.
  - intros _. apply keeps_bind; [apply map_set_keeps|].
    intros m. apply save_json_map_keeps.
Qed.

(** C1, what the code does: when [ref] moves from [h1] to another commit
    and no other reference uses [h1], the archive of [h1] that was in the
    cache directory is still there after [UpdateCache] returns. *)
Theorem UpdateCache_keeps_orphan_archive E cacheDir ref h1 h2 refMap w r w' :
  LoadRefMap E cacheDir w = Return (inl refMap) w ->
  map_get refMap ref = h1 -> h1 <> "" -> h1 <> h2 ->
  (forall other, other <> ref -> map_get refMap other <> h1) ->
  is_Some (fs w !! GoFilepath.Join [cacheDir; h1 +:+ ".tar.gz"]) ->
  UpdateCache E cacheDir ref h2 w = Return r w' ->
  is_Some (fs w' !! GoFilepath.Join [cacheDir; h1 +:+ ".tar.gz"]).
Proof.
  intros _ _ _ _ _ Hfile Hrun.
  exact (UpdateCache_keeps E cacheDir ref h2 w r w' Hrun _ Hfile).
Qed.

Lemma UpdateCache_keeps_orphan_archive_witness :
  exists w',
    UpdateCache calm "/c" "main" "2222bbbb" one_ref_cache = Return None w' /\
    fs w' !! "/c/map.json" = Some (File 420 (DJsonObject {[ "main" := "2222bbbb" ]})) /\
    is_Some (fs w' !! "/c/1111aaaa.tar.gz").
Proof.
  eexists. split; [vm_compute; reflexivity|]. split; [vm_compute; reflexivity|].
  apply (UpdateCache_keeps_orphan_archive calm "/c" "main" "1111aaaa" "2222bbbb"
           (MkMap {[ "main" := "1111aaaa" ]}) one_ref_cache None).
  - vm_compute; reflexivity.
  - reflexivity.
  - discriminate.
  - discriminate.
  - intros other Hne. unfold map_get; simpl.
    rewrite lookup_singleton_ne by (intros Heq; apply Hne; symmetry; exact Heq).
    discriminate.
  - vm_compute. eexists; reflexivity.
  - vm_compute; reflexivity.
Defined.

(** ** The archive extractor *)

(** What the check does catch: an entry that passes the filter, keeps a
    name after stripping and whose cleaned destination does not start with
    the characters of the cleaned destination directory ends the
    extraction with the path-traversal error, whatever follows it. *)
Lemma extractEntries_traversal_aborts E destDir opts n header body rest intact w :
  (negb (String.eqb (ESubdir opts) "") &&
   negb (containsSubdir (TName header) (GoStrings.Trim (ESubdir opts) "/"))) = false ->
  String.eqb (stripPath (TName header) n) "" = false ->
  GoStrings.HasPrefix
    (GoFilepath.Clean (GoFilepath.Join [destDir; stripPath (TName header) n]))
    (GoFilepath.Clean destDir) = false ->
  extractEntries E destDir opts n ((header, body) :: rest) intact w
    = Return (Some ("path traversal detected: " +:+ TName header)) w.
Proof.
  intros Hfilter Hname Hpre. cbn [extractEntries].
  rewrite Hfilter, Hname, Hpre. reflexivity.
Qed.

(** C6, what the code does: with destination /tmp/out, the regular-file
    entry repo-abc/../out-evil/f resolves to /tmp/out-evil/f, which is not
    inside /tmp/out; the extraction reports no error and writes the file
    there. *)
Theorem ExtractTarball_writes_into_sibling :
  GoFilepath.Join ["/tmp/out"; stripPath (TName sibling_file) 1] = "/tmp/out-evil/f" /\
  under "/tmp/out" "/tmp/out-evil/f" = false /\
  hasPrefix "/tmp/out-evil/f" "/tmp/out" = false /\
  exists w',
    ExtractTarball calm "/c/t.tar.gz" "/tmp/out" strip_one
      (archive_world [(sibling_file, DBytes "x")]) = Return None w' /\
    fs w' !! "/tmp/out-evil/f" = Some (File 420 (DBytes "x")).
Proof.
  do 3 (split; [vm_compute; reflexivity|]).
  eexists. split; vm_compute; reflexivity.
Qed.

(** [ExtractTarball] hands the path-traversal error to [cloneWithTar], and
    [cloneWithTar] to [Clone]; there it is one more tar-mode failure: the
    git fallback runs and [Clone] reports success. *)
Example Clone_falls_back_after_path_traversal :
  returned (Clone calm 1 verbose_tar user_repo "/work/repo" hostile) = Some None /\
  logged (Clone calm 1 verbose_tar user_repo "/work/repo" hostile) =
    [ Exec ["git"; "clone"; "--depth"; "1";
            "https://github.com/user/repo.git"; "/work/repo"];
      Info "Cloning with git (HTTPS): https://github.com/user/repo.git";
      LookPath "git";
      Info "Falling back to git clone mode...";
      Warning ("Tarball download failed: failed to extract tarball: " +:+
               "path traversal detected: ../../etc/passwd");
      Info "Extracting to /work/repo";
      Info "Using cached tarball";
      Info "Resolved HEAD to 1111aaaa";
      Warning "Could not fetch refs, using cached version";
      ListRemote "https://github.com/user/repo" ].
Proof. vm_compute. split; reflexivity. Qed.

(** The three skips of a symbolic-link entry that reached the type switch:
    each goes on with the next entry and leaves the files as they are. *)
Lemma extractEntries_symlink_skips E destDir opts n header body rest intact w :
  (negb (String.eqb (ESubdir opts) "") &&
   negb (containsSubdir (TName header) (GoStrings.Trim (ESubdir opts) "/"))) = false ->
  String.eqb (stripPath (TName header) n) "" = false ->
  GoStrings.HasPrefix
    (GoFilepath.Clean (GoFilepath.Join [destDir; stripPath (TName header) n]))
    (GoFilepath.Clean destDir) = true ->
  TTypeflag header = TypeSymlink ->
  GoFilepath.IsAbs (TLinkname header) = true \/
  GoStrings.HasPrefix
    (GoFilepath.Clean
       (GoFilepath.Join
          [GoFilepath.Dir (GoFilepath.Join [destDir; stripPath (TName header) n]);
           TLinkname header]))
    (GoFilepath.Clean destDir) = false \/
  (exists e, os_Symlink E (TLinkname header)
               (GoFilepath.Join [destDir; stripPath (TName header) n]) w
             = Return (Some e) w) ->
  extractEntries E destDir opts n ((header, body) :: rest) intact w
    = extractEntries E destDir opts n rest intact w.
Proof.
  intros Hfilter Hname Hpre Hflag Hskip. cbn [extractEntries].
  rewrite Hfilter, Hname, Hpre, Hflag. cbn [negb].
  destruct (GoFilepath.IsAbs (TLinkname header)) eqn:Habs; [reflexivity|].
  destruct Hskip as [Hskip | [Hskip | [e Hskip]]]; [discriminate Hskip | |].
  - rewrite Hskip. reflexivity.
  - destruct (GoStrings.HasPrefix
                (GoFilepath.Clean (GoFilepath.Join [GoFilepath.Dir _; _])) _);
      [|reflexivity].
    cbn [negb]. unfold bind at 1. rewrite Hskip. reflexivity.
Qed.

(** C7, what the code does: with destination /tmp/out, the link entry
    repo-abc/link with target ../out-evil/secret resolves to
    /tmp/out-evil/secret, outside /tmp/out; it is not skipped, the link is
    made. *)
Theorem ExtractTarball_links_into_sibling :
  GoFilepath.Join [GoFilepath.Dir "/tmp/out/link"; TLinkname sibling_link]
    = "/tmp/out-evil/secret" /\
  under "/tmp/out" "/tmp/out-evil/secret" = false /\
  exists w',
    ExtractTarball calm "/c/t.tar.gz" "/tmp/out" strip_one
      (archive_world [(sibling_link, DBytes "")]) = Return None w' /\
    fs w' !! "/tmp/out/link" = Some (Symlink "../out-evil/secret").
Proof.
  do 2 (split; [vm_compute; reflexivity|]).
  eexists. split; vm_compute; reflexivity.
Qed.

(** ** The remove action *)

Lemma hasPrefix_same (p q : string) :
  GoFilepath.Clean p = GoFilepath.Clean q -> hasPrefix p q = true.
Proof.
  intros H. unfold hasPrefix. rewrite H, String.eqb_refl. reflexivity.
Qed.

(** C10: a files entry whose cleaned join with the destination root is the
    root itself passes the containment check, and where the root is an
    existing directory that may be removed, the loop deletes the root with
    everything below it, notes "Removed directory", and goes on; nothing is
    skipped and no warning is given. *)
Theorem removeFiles_root_entry E destDir file rest mode w :
  GoFilepath.Clean (GoFilepath.Join [destDir; file]) = GoFilepath.Clean destDir ->
  os_Stat E (GoFilepath.Join [destDir; file]) w = Return (inr (Dir mode)) w ->
  endsWithDot (GoFilepath.Join [destDir; file]) = false ->
  io_fault E OpRemove (GoFilepath.Join [destDir; file]) = false ->
  let w' := wiped (GoFilepath.Clean destDir) (Info ("Removed directory: " +:+ file)) w in
  hasPrefix (GoFilepath.Clean (GoFilepath.Join [destDir; file]))
            (GoFilepath.Clean destDir) = true /\
  removeFiles E (file :: rest) destDir w = removeFiles E rest destDir w' /\
  executeRemoveAction E
    {| Action_ := "remove"; Src := ""; Files := [file]; ACache := false;
       AVerbose := false |} destDir w = Return None w' /\
  forall p, under (GoFilepath.Clean destDir) p = true -> fs w' !! p = None.
Proof.
  intros Hroot Hstat Hdot Hfault w'.
  assert (Hpre : hasPrefix (GoFilepath.Clean (GoFilepath.Join [destDir; file]))
                           (GoFilepath.Clean destDir) = true).
  { apply hasPrefix_same. rewrite Hroot. reflexivity. }
  assert (Hne : String.eqb (GoFilepath.Join [destDir; file]) "" = false).
  { destruct (String.eqb (GoFilepath.Join [destDir; file]) "") eqn:Hempty;
      [|reflexivity].
    unfold os_Stat, bind, get_fs, ret in Hstat. rewrite Hempty in Hstat.
    discriminate Hstat. }
  assert (Hstep : forall others, removeFiles E (file :: others) destDir w
                                 = removeFiles E others destDir w').
  { intros others. cbn [removeFiles]. rewrite Hpre. cbn [negb].
    unfold bind at 1. rewrite Hstat.
    unfold bind at 1. unfold os_RemoveAll at 1.
    unfold bind at 1, get_fs at 1. rewrite Hne, Hdot, Hfault.
    unfold bind at 1, put_fs at 1. unfold ret at 1.
    unfold bind at 1, emit at 1. cbn [fs journal].
    rewrite Hroot. reflexivity. }
  split; [exact Hpre|]. split; [apply Hstep|]. split.
  - unfold executeRemoveAction. cbn [Files length Nat.eqb].
    rewrite Hstep. reflexivity.
  - intros p Hp. unfold w', wiped; cbn [fs].
    apply map_lookup_filter_None. right. intros x _. cbn [fst].
    rewrite Hp. discriminate.
Qed.

Lemma removeFiles_root_entry_witness :
  executeRemoveAction calm
    {| Action_ := "remove"; Src := ""; Files := ["."]; ACache := false;
       AVerbose := false |} "/work/repo" populated
  = Return None
      (wiped "/work/repo" (Info "Removed directory: .") populated) /\
  fs (wiped "/work/repo" (Info "Removed directory: .") populated)
    = list_to_map [ ("/work", Dir 493);
                    ("/work/repo-notes", File 420 (DBytes "keep")) ] /\
  removeFiles calm [""] "/work/repo" populated
  = Return None (wiped "/work/repo" (Info "Removed directory: ") populated).
Proof.
  split; [|split].
  - apply (removeFiles_root_entry calm "/work/repo" "." [] 493 populated);
      vm_compute; reflexivity.
  - vm_compute; reflexivity.
  - apply (proj1 (proj2 (removeFiles_root_entry calm "/work/repo" "" [] 493 populated
                           eq_refl eq_refl eq_refl eq_refl))).
Defined.

(** Where the destination is the bare current directory, [os.RemoveAll]
    refuses the path and the action fails instead. *)
Example removeFiles_current_directory :
  removeFiles calm ["."] "."
    {| fs := {[ "README.md" := File 420 (DBytes "hello") ]}; journal := [] |}
  = Return (Some "failed to remove directory .: unlinkat .: input/output error")
      {| fs := {[ "README.md" := File 420 (DBytes "hello") ]}; journal := [] |}.
Proof. vm_compute; reflexivity. Qed.

(** ** Calls that always return *)

Lemma steady_ret {A} (a : A) : steady (ret a).
Proof. intros w. exists a, w. split; [reflexivity|]. by exists []. Qed.

Lemma steady_bind {A B} (m : M A) (k : A -> M B) :
  steady m -> (forall a, steady (k a)) -> steady (bind m k).
Proof.
  intros Hm Hk w. destruct (Hm w) as (a & w1 & H1 & l1 & Hl1).
  destruct (Hk a w1) as (b & w2 & H2 & l2 & Hl2).
  exists b, w2. split; [unfold bind; rewrite H1; exact H2|].
  exists (l2 ++ l1). rewrite Hl2, Hl1. apply app_assoc.
Qed.

Lemma steady_emit e : steady (emit e).
Proof. intros w. eexists tt, _. split; [reflexivity|]. by exists [e]. Qed.

Lemma steady_get_fs : steady get_fs.
Proof. intros w. eexists _, _. split; [reflexivity|]. by exists []. Qed.

Lemma steady_put_fs f : steady (put_fs f).
Proof. intros w. eexists tt, _. split; [reflexivity|]. by exists []. Qed.

Lemma steady_when b m : steady m -> steady (when b m).
Proof. intros Hm. destruct b; [exact Hm | apply steady_ret]. Qed.

Ltac steady_step :=
  first
    [ apply steady_ret | apply steady_emit | apply steady_get_fs
    | apply steady_put_fs | apply steady_when
    | apply steady_bind; [|intros ?]
    | match goal with
      | |- steady (if ?b then _ else _) => destruct b
      | |- steady (match ?x with _ => _ end) => destruct x
      end ].

Lemma os_RemoveAll_steady E path : steady (os_RemoveAll E path).
Proof. unfold os_RemoveAll. repeat steady_step. Qed.

Lemma os_ReadDir_steady E path : steady (os_ReadDir E path).
Proof. unfold os_ReadDir. repeat steady_step. Qed.

Lemma os_Rename_steady E o n : steady (os_Rename E o n).
Proof. unfold os_Rename. repeat steady_step. Qed.

Lemma os_MkdirTemp_steady E pattern : steady (os_MkdirTemp E pattern).
Proof. unfold os_MkdirTemp. repeat steady_step. Qed.

Lemma run_steady E argv : steady (run E argv).
Proof. unfold run. repeat steady_step. Qed.

Lemma moveEntries_steady E from to entries : steady (moveEntries E from to entries).
Proof.
  induction entries as [|entry rest IH]; cbn [moveEntries]; [apply steady_ret|].
  apply steady_bind; [apply os_Rename_steady|].
  intros [e|]; [apply steady_ret | exact IH].
Qed.

Lemma removeEntries_steady E dir entries : steady (removeEntries E dir entries).
Proof.
  induction entries as [|entry rest IH]; cbn [removeEntries]; [apply steady_ret|].
  apply steady_bind; [apply os_RemoveAll_steady | intros _; exact IH].
Qed.

Ltac steady_os :=
  first
    [ apply os_RemoveAll_steady | apply os_ReadDir_steady | apply os_Rename_steady
    | apply os_MkdirTemp_steady | apply run_steady | apply moveEntries_steady
    | apply removeEntries_steady | steady_step ].

(** [cloneWithGit] always returns, and the first thing it does is look for
    the [git] binary. *)
Lemma cloneWithGit_looks_for_git E d src dest w :
  exists r w' notes,
    cloneWithGit E d src dest w = Return r w' /\
    journal w' = notes ++ LookPath "git" :: journal w.
Proof.
  unfold cloneWithGit.
  match goal with
  | |- context [bind (emit (LookPath "git")) ?k] =>
      assert (Hrest : steady (k tt))
  end.
  { cbv zeta. repeat steady_os. }
  destruct (Hrest {| fs := fs w; journal := LookPath "git" :: journal w |})
    as (r & w' & Hrun & notes & Hnotes).
  exists r, w', notes. split; [|exact Hnotes].
  unfold bind at 1. unfold emit at 1. exact Hrun.
Qed.

Lemma checkDestEmpty_pure E dest : pure_read (checkDestEmpty E dest).
Proof.
  intros w a w' H. unfold checkDestEmpty, os_ReadDir, bind, get_fs, ret in H.
  repeat case_match; congruence.
Qed.

(** C2, what the code does: in offline mode too, once the destination
    check has passed and the tar-mode acquisition has failed, [Clone] goes
    on to the git full clone: the [git] binary is looked up, and the
    outcome is success or the combined error of both attempts, never the
    cache-miss error alone. *)
Theorem acquire_offline_falls_back E d src dest w err w1 :
  Cache d = true ->
  String.eqb (Mode d) "git" = false ->
  (if negb (Force d) then checkDestEmpty E dest else ret None) w = Return None w ->
  cloneWithTar E d src dest (GetRepoCacheDir E src) w = Return (Some err) w1 ->
  exists r w',
    acquire E d src dest w = Return r w' /\
    In (LookPath "git") (journal w') /\
    (r = None \/
     exists gitErr,
       r = Some ("tarball download failed (" +:+ err +:+
                 ") and git clone also failed (" +:+ gitErr +:+ ")")).
Proof.
  intros _ Hmode Hcheck Htar.
  unfold acquire. unfold bind at 1. rewrite Hcheck, Hmode.
  unfold bind at 1. rewrite Htar.
  set (notes := if Verbose d
                then bind (emit (Warning ("Tarball download failed: " +:+ err)))
                          (fun _ => emit (Info "Falling back to git clone mode..."))
                else ret tt).
  assert (Hnotes : steady notes) by (unfold notes; repeat steady_step).
  destruct (Hnotes w1) as ([] & w2 & H2 & _).
  unfold bind at 1. rewrite H2.
  destruct (os_RemoveAll_steady E dest w2) as (e & w3 & H3 & _).
  unfold bind at 1. rewrite H3.
  destruct (cloneWithGit_looks_for_git E d src dest w3) as (r & w4 & l & H4 & Hl).
  unfold bind at 1. rewrite H4.
  assert (Hin : In (LookPath "git") (journal w4)).
  { rewrite Hl. apply in_or_app. right. left. reflexivity. }
  destruct r as [gitErr|]; eexists _, w4; (split; [reflexivity|]);
    (split; [exact Hin|]); [right; by exists gitErr | by left].
Qed.

(** an empty cache, offline mode: the cache-miss error of the tar mode is
    followed by a network clone, and [Clone] reports success *)
Lemma acquire_offline_falls_back_witness :
  cloneWithTar calm offline user_repo "/work/repo"
     (GetRepoCacheDir calm user_repo) bare
   = Return (Some "ref HEAD not found in cache (offline mode)") bare /\
  Clone calm 1 offline user_repo "/work/repo" bare
   = Return None
       {| fs := fs bare;
          journal := [ Exec ["git"; "clone"; "--depth"; "1";
                             "https://github.com/user/repo.git"; "/work/repo"];
                       LookPath "git" ] |} /\
  exists r w',
    acquire calm offline user_repo "/work/repo" bare = Return r w' /\
    In (LookPath "git") (journal w') /\
    (r = None \/
     exists gitErr,
       r = Some ("tarball download failed (" +:+
                 "ref HEAD not found in cache (offline mode)" +:+
                 ") and git clone also failed (" +:+ gitErr +:+ ")")).
Proof.
  split; [vm_compute; reflexivity|]. split; [vm_compute; reflexivity|].
  apply (acquire_offline_falls_back calm offline user_repo "/work/repo" bare
           "ref HEAD not found in cache (offline mode)" bare);
    vm_compute; reflexivity.
Defined.

(** ** The action manifest *)

(** Actions run in order: a prefix that runs without error hands its world
    and the next index to the rest. *)
Lemma executeFrom_app E C i pre rest dest d w w' :
  executeFrom E C i pre dest d w = Return None w' ->
  executeFrom E C i (pre ++ rest) dest d w
    = executeFrom E C (i + length pre) rest dest d w'.
Proof.
  revert i w. induction pre as [|a pre IH]; intros i w H.
  - cbn [executeFrom] in H. unfold ret in H. injection H as <-.
    cbn [app length]. rewrite Nat.add_0_r. reflexivity.
  - cbn [app length]. rewrite Nat.add_succ_r, <- Nat.add_succ_l.
    cbn [executeFrom] in H |- *.
    destruct (String.eqb (Action_ a) "clone").
    + unfold bind at 1 in H. unfold bind at 1.
      destruct (executeCloneAction C a dest d w) as [[e|] w1|msg w1|];
        [discriminate H | | discriminate H | discriminate H].
      apply IH. exact H.
    + destruct (String.eqb (Action_ a) "remove").
      * unfold bind at 1 in H. unfold bind at 1.
        destruct (executeRemoveAction E a dest w) as [[e|] w1|msg w1|];
          [discriminate H | | discriminate H | discriminate H].
        apply IH. exact H.
      * unfold bind at 1 in H. unfold bind at 1.
        unfold emit at 1 in H. unfold emit at 1.
        apply IH. exact H.
Qed.

Lemma os_Remove_existing E path f j n :
  String.eqb path "" = false ->
  io_fault E OpRemove path = false ->
  f !! GoFilepath.Clean path = Some n ->
  (forall mode, n <> Dir mode) ->
  os_Remove E path {| fs := f; journal := j |}
    = Return None {| fs := delete (GoFilepath.Clean path) f; journal := j |}.
Proof.
  intros Hne Hfault Hlook Hnode.
  unfold os_Remove, bind, get_fs, put_fs, ret; cbn [fs journal].
  rewrite Hne, Hfault, Hlook.
  destruct n as [mode data|mode|target]; [reflexivity | | reflexivity].
  exfalso. exact (Hnode mode eq_refl).
Qed.

Lemma stat_from_S hops f p :
  stat_from (S hops) f p =
    if String.eqb p "/" || String.eqb p "." then inr (Dir 493)
    else match f !! p with
         | None => inl NotExist
         | Some (Symlink t) =>
             stat_from hops f
               (if GoFilepath.IsAbs t then GoFilepath.Clean t
                else GoFilepath.Join [GoFilepath.Dir p; t])
         | Some n => inr n
         end.
Proof. reflexivity. Qed.

(** a file that can be read is stored as a file or behind a link, not as a
    directory *)
Lemma os_ReadFile_node E path w data w' :
  os_ReadFile E path w = Return (inr data) w' ->
  String.eqb path "" = false /\
  exists n, fs w !! GoFilepath.Clean path = Some n /\ forall mode, n <> Dir mode.
Proof.
  intros H. unfold os_ReadFile, bind, get_fs, ret in H.
  destruct (String.eqb path ""); [discriminate H|]. split; [reflexivity|].
  destruct (io_fault E OpRead path); [discriminate H|].
  destruct (stat_from 40 (fs w) (GoFilepath.Clean path)) as [e|n] eqn:Hstat;
    [discriminate H|].
  destruct n as [mode d| |]; try discriminate H.
  change 40%nat with (S 39) in Hstat. rewrite stat_from_S in Hstat.
  destruct (String.eqb (GoFilepath.Clean path) "/" ||
            String.eqb (GoFilepath.Clean path) "."); [discriminate Hstat|].
  destruct (fs w !! GoFilepath.Clean path) as [n|]; [|discriminate Hstat].
  exists n. split; [reflexivity|].
  intros m ->. discriminate Hstat.
Qed.

(** a manifest that is read and parsed is removed before [LoadActions]
    returns *)
Lemma LoadActions_consumes E dest w data actions :
  os_ReadFile E (GoFilepath.Join [dest; "degit.json"]) w = Return (inr data) w ->
  json_Unmarshal_actions data = inl actions ->
  io_fault E OpRemove (GoFilepath.Join [dest; "degit.json"]) = false ->
  LoadActions E dest w
    = Return (inl actions)
        {| fs := delete (GoFilepath.Clean (GoFilepath.Join [dest; "degit.json"])) (fs w);
           journal := journal w |}.
Proof.
  intros Hread Hjson Hfault.
  destruct (os_ReadFile_node _ _ _ _ _ Hread) as (Hne & n & Hlook & Hnode).
  unfold LoadActions. unfold bind at 1. rewrite Hread, Hjson.
  unfold bind at 1. destruct w as [f j]; cbn [fs journal] in *.
  rewrite (os_Remove_existing E _ f j n Hne Hfault Hlook Hnode). reflexivity.
Qed.

(** C9: after a successful acquisition, a manifest that does not parse
    only leaves a warning and [Clone] succeeds with the files as acquired;
    a manifest that parses is deleted before any action runs; the actions
    run in order; the first clone or remove action that fails ends [Clone]
    with an error naming its index and kind; an action of unknown kind
    leaves a warning and the next one runs. *)
Theorem Clone_manifest_handling E n d src dest w w1 :
  acquire E d src dest w = Return None w1 ->
  (forall data msg,
     os_ReadFile E (GoFilepath.Join [dest; "degit.json"]) w1 = Return (inr data) w1 ->
     json_Unmarshal_actions data = inr msg ->
     Clone E (S n) d src dest w
       = Return None
           (noted (Warning ("Failed to load degit.json: failed to parse degit.json: "
                            +:+ msg)) w1)) /\
  (forall data actions,
     os_ReadFile E (GoFilepath.Join [dest; "degit.json"]) w1 = Return (inr data) w1 ->
     json_Unmarshal_actions data = inl actions ->
     io_fault E OpRemove (GoFilepath.Join [dest; "degit.json"]) = false ->
     exists w2,
       LoadActions E dest w1 = Return (inl actions) w2 /\
       fs w2 !! GoFilepath.Clean (GoFilepath.Join [dest; "degit.json"]) = None /\
       (forall p, p <> GoFilepath.Clean (GoFilepath.Join [dest; "degit.json"]) ->
                  fs w2 !! p = fs w1 !! p) /\
       Clone E (S n) d src dest w
         = match ExecuteActions E (Clone E n) actions dest d
                   (if (0 <? length actions)%nat
                    then announced d (length actions) w2 else w2) with
           | Return (Some execErr) w3 =>
               Return (Some ("failed to execute actions: " +:+ execErr)) w3
           | other => other
           end) /\
  (forall C pre rest w2 w3,
     executeFrom E C 0 pre dest d w2 = Return None w3 ->
     ExecuteActions E C (pre ++ rest) dest d w2
       = executeFrom E C (length pre) rest dest d w3) /\
  (forall pre a post kind e w2 w3 w4,
     LoadActions E dest w1 = Return (inl (pre ++ a :: post)) w2 ->
     executeFrom E (Clone E n) 0 pre dest d
       (announced d (length (pre ++ a :: post)) w2) = Return None w3 ->
     (kind = "clone" /\ Action_ a = "clone" /\
      executeCloneAction (Clone E n) a dest d w3 = Return (Some e) w4) \/
     (kind = "remove" /\ Action_ a = "remove" /\
      executeRemoveAction E a dest w3 = Return (Some e) w4) ->
     Clone E (S n) d src dest w
       = Return (Some ("failed to execute actions: action " +:+
                       GoStrings.Itoa (length pre) +:+ " (" +:+ kind +:+ "): " +:+ e))
           w4) /\
  (forall C i a rest w2,
     Action_ a <> "clone" -> Action_ a <> "remove" ->
     executeFrom E C i (a :: rest) dest d w2
       = executeFrom E C (S i) rest dest d
           (noted (Warning ("Unknown action: " +:+ Action_ a)) w2)).
Proof.
  intros Hacq.
  assert (Hclone : Clone E (S n) d src dest w = runManifest E (Clone E n) d dest w1).
  { cbn [Clone]. unfold bind at 1. rewrite Hacq. reflexivity. }
  assert (Hannounce : forall (actions : list Action) w2,
            bind (when (Verbose d)
                    (emit (Info ("Executing " +:+ GoStrings.Itoa (length actions) +:+
                                 " actions from degit.json"))))
                 (fun _ => bind (ExecuteActions E (Clone E n) actions dest d)
                   (fun execErr =>
                      match execErr with
                      | Some execErr =>
                          ret (Some ("failed to execute actions: " +:+ execErr))
                      | None => ret None
                      end)) w2
            = match ExecuteActions E (Clone E n) actions dest d
                      (announced d (length actions) w2) with
              | Return (Some execErr) w3 =>
                  Return (Some ("failed to execute actions: " +:+ execErr)) w3
              | other => other
              end).
  { intros actions w2. unfold announced, when, bind, emit, ret.
    destruct (Verbose d);
      destruct (ExecuteActions E (Clone E n) actions dest d _) as [[e|] w3| |];
      reflexivity. }
  split; [|split; [|split; [|split]]].
  - intros data msg Hread Hjson. rewrite Hclone.
    unfold runManifest, LoadActions. unfold bind at 1. unfold bind at 1.
    rewrite Hread, Hjson. reflexivity.
  - intros data actions Hread Hjson Hfault.
    pose proof (LoadActions_consumes E dest w1 data actions Hread Hjson Hfault) as Hload.
    eexists. split; [exact Hload|]. cbn [fs]. split; [apply lookup_delete_eq|].
    split; [intros p Hp; apply lookup_delete_ne; congruence|].
    rewrite Hclone. unfold runManifest. unfold bind at 1. rewrite Hload.
    destruct (0 <? length actions)%nat eqn:Hlen.
    + apply Hannounce.
    + destruct actions; [reflexivity | discriminate Hlen].
  - intros C pre rest w2 w3 Hpre. unfold ExecuteActions.
    destruct (length (pre ++ rest) =? 0)%nat eqn:Hlen.
    + apply Nat.eqb_eq in Hlen. rewrite length_app in Hlen.
      destruct pre; [|simpl in Hlen; lia]. destruct rest; [|simpl in Hlen; lia].
      cbn [executeFrom] in Hpre |- *. exact Hpre.
    + apply (executeFrom_app E C 0 pre rest dest d w2 w3 Hpre).
  - intros pre a post kind e w2 w3 w4 Hload Hpre Hfail.
    rewrite Hclone. unfold runManifest. unfold bind at 1. rewrite Hload.
    replace (0 <? length (pre ++ a :: post))%nat with true
      by (rewrite length_app; simpl; symmetry; apply Nat.ltb_lt; lia).
    rewrite Hannounce. unfold ExecuteActions.
    replace (length (pre ++ a :: post) =? 0)%nat with false
      by (rewrite length_app; simpl; symmetry; apply Nat.eqb_neq; lia).
    rewrite (executeFrom_app E _ 0 pre (a :: post) dest d _ w3 Hpre).
    cbn [executeFrom Nat.add].
    destruct Hfail as [(-> & Hkind & Hrun) | (-> & Hkind & Hrun)].
    + rewrite Hkind. cbn [String.eqb Ascii.eqb Bool.eqb].
      unfold bind at 1. rewrite Hrun. reflexivity.
    + rewrite Hkind. cbn [String.eqb Ascii.eqb Bool.eqb].
      unfold bind at 1. rewrite Hrun. reflexivity.
  - intros C i a rest w2 Hclone' Hremove. cbn [executeFrom].
    destruct (String.eqb_spec (Action_ a) "clone") as [Heq|_]; [contradiction|].
    destruct (String.eqb_spec (Action_ a) "remove") as [Heq|_]; [contradiction|].
    reflexivity.
Qed.

(** a manifest that is no JSON array, and one whose third action fails *)
Lemma Clone_manifest_handling_witness :
  Clone calm 1 git_mode user_repo "/work/repo" (manifest_world (DBytes "{oops"))
    = Return None
        (noted (Warning ("Failed to load degit.json: failed to parse degit.json: "
                         +:+ "json: cannot unmarshal into Go value of type []degit.Action"))
               (after_git (manifest_world (DBytes "{oops")))) /\
  fs (after_git (manifest_world (DBytes "{oops"))) !! "/work/repo/README.md"
    = Some (File 420 (DBytes "hello")) /\
  exists w4,
    Clone calm 1 git_mode user_repo "/work/repo"
      (manifest_world
         (DJsonActions [remove_readme; unknown_kind; clone_without_src; remove_readme]))
      = Return (Some ("failed to execute actions: action " +:+ GoStrings.Itoa 2 +:+
                      " (" +:+ "clone" +:+ "): " +:+
                      "clone action requires 'src' field")) w4 /\
    fs w4 !! "/work/repo/degit.json" = None /\
    fs w4 !! "/work/repo/README.md" = None /\
    journal w4 = [ Warning "Unknown action: frobnicate";
                   Info "Removed file: README.md";
                   Exec ["git"; "clone"; "--depth"; "1";
                         "https://github.com/user/repo.git"; "/work/repo"];
                   LookPath "git" ].
Proof.
  split; [|split; [vm_compute; reflexivity|]].
  - apply (proj1 (Clone_manifest_handling calm 0 git_mode user_repo "/work/repo"
                    (manifest_world (DBytes "{oops"))
                    (after_git (manifest_world (DBytes "{oops"))) eq_refl)
             (DBytes "{oops")); reflexivity.
  - eexists. split.
    + eapply (proj1 (proj2 (proj2 (proj2
               (Clone_manifest_handling calm 0 git_mode user_repo "/work/repo"
                  (manifest_world
                     (DJsonActions [remove_readme; unknown_kind; clone_without_src;
                                    remove_readme]))
                  (after_git
                     (manifest_world
                        (DJsonActions [remove_readme; unknown_kind; clone_without_src;
                                       remove_readme]))) eq_refl))))
               [remove_readme; unknown_kind] clone_without_src [remove_readme]
               "clone" "clone action requires 'src' field").
      * vm_compute; reflexivity.
      * vm_compute; reflexivity.
      * left. split; [reflexivity|]. split; [reflexivity|]. reflexivity.
    + split; [vm_compute; reflexivity|]. split; vm_compute; reflexivity.
Defined.
